(** * Recipes API (gin-tut, main.go): shallow embedding and properties

    The four active handlers of main.go ([ListRecipeHandler],
    [NewRecipeHandler], [SearchRecipesHandler], [UpdateRecipeHandler]) are
    embedded as state-passing functions over a [World] made of the
    package-level variables of main.go and of the "recipes" collection of
    the document store.  Calls into gin, encoding/json and the MongoDB
    driver are either written out (object ids, strings.EqualFold on ASCII,
    the collection operations) or taken as members of the class
    [Libraries] (JSON binding, BSON decoding, Unicode case folding). *)

From Stdlib Require Import ZArith List String Ascii Bool Lia.
Import ListNotations.
Open Scope string_scope.
Open Scope list_scope.
Open Scope Z_scope.
Set Warnings "-register-all".

(** ** Go values *)

(** A Go slice is either nil or backed by an array; the difference shows
    when it is marshalled. *)
Definition slice (A : Type) : Type := option (list A).

Definition elems {A : Type} (s : slice A) : list A :=
  match s with
  | Some l => l
  | None => []
  end.

(** [make([]T, 0)] *)
Definition make {A : Type} : slice A := Some [].

(** [append(s, x)] *)
Definition append {A : Type} (s : slice A) (x : A) : slice A :=
  Some (elems s ++ [x]).

(** [len(s)] *)
Definition len {A : Type} (s : slice A) : nat := List.length (elems s).

(** An [error] is represented by the text of its [Error()] method. *)
Definition error : Type := string.

(** [time.Time], as nanoseconds since the Unix epoch. *)
Definition Time : Type := Z.

(** The zero [time.Time] is January 1, year 1, 00:00:00 UTC. *)
Definition zeroTime : Time := -62135596800 * 1000000000.

(** [t.Unix()] *)
Definition Unix (t : Time) : Z := t / 1000000000.

(** ** primitive.ObjectID: [12]byte *)

Definition ObjectID : Type := list Z.

Definition NilObjectID : ObjectID := repeat 0 12.

Definition byte_of (v : Z) : Z := Z.land v 255.

(** [binary.BigEndian.PutUint32] *)
Definition PutUint32 (v : Z) : list Z :=
  [byte_of (Z.shiftr v 24); byte_of (Z.shiftr v 16);
   byte_of (Z.shiftr v 8); byte_of v].

(** [putUint24] of the driver *)
Definition putUint24 (v : Z) : list Z :=
  [byte_of (Z.shiftr v 16); byte_of (Z.shiftr v 8); byte_of v].

Definition uint32 (v : Z) : Z := v mod 2 ^ 32.

(** [primitive.NewObjectIDFromTimestamp], given the process-unique bytes
    and the value the counter has after its atomic increment. *)
Definition NewObjectIDFromTimestamp
    (timestamp : Time) (processUnique : list Z) (counter : Z) : ObjectID :=
  PutUint32 (uint32 (Unix timestamp)) ++ processUnique ++ putUint24 counter.

Fixpoint ObjectID_eqb (a b : ObjectID) : bool :=
  match a, b with
  | [], [] => true
  | x :: a', y :: b' => (x =? y) && ObjectID_eqb a' b'
  | _, _ => false
  end.

(** One hexadecimal digit, as [encoding/hex] reads it. *)
Definition fromHexChar (c : ascii) : option Z :=
  let n := Z.of_nat (nat_of_ascii c) in
  if (48 <=? n) && (n <=? 57) then Some (n - 48)
  else if (97 <=? n) && (n <=? 102) then Some (n - 97 + 10)
  else if (65 <=? n) && (n <=? 70) then Some (n - 65 + 10)
  else None.

(** [hex.Decode]: two digits per byte. *)
Fixpoint hexDecode (s : string) : option (list Z) :=
  match s with
  | EmptyString => Some []
  | String a (String b s') =>
      match fromHexChar a, fromHexChar b, hexDecode s' with
      | Some p, Some q, Some l => Some (Z.lor (Z.shiftl p 4) q :: l)
      | _, _, _ => None
      end
  | String _ EmptyString => None
  end.

Definition ErrInvalidHex : error :=
  "the provided hex string is not a valid ObjectID".

(** [primitive.ObjectIDFromHex] *)
Definition ObjectIDFromHex (s : string) : ObjectID * option error :=
  if negb (Nat.eqb (String.length s) 24) then (NilObjectID, Some ErrInvalidHex)
  else match hexDecode s with
       | Some oid => (oid, None)
       | None => (NilObjectID, Some "encoding/hex: invalid byte")
       end.

(** ** The Recipe struct *)

Record Recipe : Type := mkRecipe {
  ID : ObjectID;
  Name : string;
  Tags : slice string;
  Ingredients : slice string;
  Instructions : slice string;
  PublishedAt : Time
}.

(** [var recipe Recipe] *)
Definition zeroRecipe : Recipe :=
  mkRecipe NilObjectID "" None None None zeroTime.

Definition set_ID (r : Recipe) (oid : ObjectID) : Recipe :=
  mkRecipe oid (Name r) (Tags r) (Ingredients r) (Instructions r)
           (PublishedAt r).

Definition set_PublishedAt (r : Recipe) (t : Time) : Recipe :=
  mkRecipe (ID r) (Name r) (Tags r) (Ingredients r) (Instructions r) t.

(** ** BSON documents and the collection *)

Inductive BVal : Type :=
| BObjectID (o : ObjectID)
| BString (s : string)
| BArray (l : list BVal)
| BDateTime (ms : Z)
| BInt32 (n : Z)
| BNull.

(** A document is an ordered list of elements. *)
Definition Doc : Type := list (string * BVal).

Fixpoint BVal_eqb (a b : BVal) : bool :=
  match a, b with
  | BObjectID x, BObjectID y => ObjectID_eqb x y
  | BString x, BString y => String.eqb x y
  | BArray l, BArray m =>
      (fix all2 (l m : list BVal) : bool :=
         match l, m with
         | [], [] => true
         | x :: l', y :: m' => BVal_eqb x y && all2 l' m'
         | _, _ => false
         end) l m
  | BDateTime x, BDateTime y => x =? y
  | BInt32 x, BInt32 y => x =? y
  | BNull, BNull => true
  | _, _ => false
  end.

Fixpoint lookup (k : string) (d : Doc) : option BVal :=
  match d with
  | [] => None
  | (k', v) :: d' => if String.eqb k' k then Some v else lookup k d'
  end.

(** The driver encodes a nil slice as null and a [time.Time] as a UTC
    datetime in milliseconds. *)
Definition bsonStrings (s : slice string) : BVal :=
  match s with
  | None => BNull
  | Some l => BArray (map BString l)
  end.

Definition bsonTime (t : Time) : BVal := BDateTime (t / 1000000).

(** [bson.Marshal] of a Recipe, following the struct's bson tags. *)
Definition bsonMarshal (r : Recipe) : Doc :=
  [("_id", BObjectID (ID r));
   ("name", BString (Name r));
   ("tags", bsonStrings (Tags r));
   ("ingredients", bsonStrings (Ingredients r));
   ("instructions", bsonStrings (Instructions r));
   ("publishedAt", bsonTime (PublishedAt r))].

(** A filter such as [bson.M{"_id": objectId}] selects the documents that
    carry each of its elements with an equal value. *)
Definition matches (filter d : Doc) : bool :=
  forallb (fun kv => match lookup (fst kv) d with
                     | Some v => BVal_eqb v (snd kv)
                     | None => false
                     end) filter.

(** [$set] of one field: the value is replaced in place, a field the
    document lacks is added at its end. *)
Fixpoint set_field (k : string) (v : BVal) (d : Doc) : Doc :=
  match d with
  | [] => [(k, v)]
  | (k', v') :: d' =>
      if String.eqb k' k then (k', v) :: d' else (k', v') :: set_field k v d'
  end.

Definition apply_set (fields d : Doc) : Doc :=
  fold_left (fun acc kv => set_field (fst kv) (snd kv) acc) fields d.

(** An update document is a list of operators with their fields; the
    program only uses [$set]. *)
Definition apply_update (update : list (string * Doc)) (d : Doc) : Doc :=
  fold_left (fun acc op => if String.eqb (fst op) "$set"
                           then apply_set (snd op) acc else acc) update d.

(** The first document selected by the filter is updated, in place. *)
Fixpoint update_first (filter : Doc) (update : list (string * Doc))
    (coll : list Doc) : list Doc :=
  match coll with
  | [] => []
  | d :: coll' =>
      if matches filter d then apply_update update d :: coll'
      else d :: update_first filter update coll'
  end.

(** Whether a document of the collection already has this [_id]. *)
Definition has_id (coll : list Doc) (d : Doc) : bool :=
  match lookup "_id" d with
  | Some v => existsb (fun d' => match lookup "_id" d' with
                                 | Some v' => BVal_eqb v' v
                                 | None => false
                                 end) coll
  | None => false
  end.

(** ** JSON responses *)

Inductive JSONValue : Type :=
| JNull
| JString (s : string)
| JTime (t : Time)
| JArray (l : list JSONValue)
| JObject (fields : list (string * JSONValue)).

Definition hexDigit (n : Z) : ascii :=
  ascii_of_nat (Z.to_nat (if n <? 10 then 48 + n else 97 + n - 10)).

(** [ObjectID.Hex] *)
Fixpoint Hex (o : ObjectID) : string :=
  match o with
  | [] => EmptyString
  | b :: o' =>
      String (hexDigit (Z.shiftr b 4)) (String (hexDigit (Z.land b 15)) (Hex o'))
  end.

(** encoding/json writes a nil slice as [null] and any other slice as an
    array. *)
Definition jsonSlice {A : Type} (f : A -> JSONValue) (s : slice A) : JSONValue :=
  match s with
  | None => JNull
  | Some l => JArray (map f l)
  end.

(** [json.Marshal] of a Recipe, following the struct's json tags. *)
Definition jsonRecipe (r : Recipe) : JSONValue :=
  JObject [("id", JString (Hex (ID r)));
           ("name", JString (Name r));
           ("tags", jsonSlice JString (Tags r));
           ("ingredients", jsonSlice JString (Ingredients r));
           ("instructions", jsonSlice JString (Instructions r));
           ("publishedAt", JTime (PublishedAt r))].

(** The second argument of [c.JSON]: a recipe, a slice of recipes or a
    [gin.H] of messages. *)
Inductive Value : Type :=
| VRecipe (r : Recipe)
| VRecipes (s : slice Recipe)
| H (h : list (string * string)).

Definition jsonMarshal (v : Value) : JSONValue :=
  match v with
  | VRecipe r => jsonRecipe r
  | VRecipes s => jsonSlice jsonRecipe s
  | H h => JObject (map (fun kv => (fst kv, JString (snd kv))) h)
  end.

Record Response : Type := JSON {
  status : Z;
  body : Value
}.

Definition StatusOK : Z := 200.
Definition StatusBadRequest : Z := 400.
Definition StatusInternalServerError : Z := 500.

(** ** The process and its surroundings *)

(** The package-level variables [recipes] and [err], the driver's
    [objectIDCounter] and [processUnique], the standard output and the
    "recipes" collection of the database. *)
Record World : Type := mkWorld {
  recipes : slice Recipe;
  err : option error;
  objectIDCounter : Z;
  processUnique : list Z;
  stdout : list string;
  collection : list Doc
}.

(** What one request meets outside the process: the clock read by
    [NewObjectID], the clock read by [time.Now] in the handler, and the
    error, if any, that the storage round trip of the request reports. *)
Record Env : Type := mkEnv {
  oidNow : Time;
  Now : Time;
  fault : option error
}.

Definition set_collection (w : World) (coll : list Doc) : World :=
  mkWorld (recipes w) (err w) (objectIDCounter w) (processUnique w)
          (stdout w) coll.

Definition set_err (w : World) (e : option error) : World :=
  mkWorld (recipes w) e (objectIDCounter w) (processUnique w)
          (stdout w) (collection w).

(** [fmt.Println(err)] *)
Definition Println (w : World) (e : error) : World :=
  mkWorld (recipes w) (err w) (objectIDCounter w) (processUnique w)
          (stdout w ++ [e]) (collection w).

(** [primitive.NewObjectID]: the counter is incremented (uint32) and its
    new value goes into the identifier. *)
Definition NewObjectID (env : Env) (w : World) : ObjectID * World :=
  let counter := uint32 (objectIDCounter w + 1) in
  (NewObjectIDFromTimestamp (oidNow env) (processUnique w) counter,
   mkWorld (recipes w) (err w) counter (processUnique w) (stdout w)
           (collection w)).

(** [collection.Find(ctx, bson.M{})] and the documents its cursor yields. *)
Definition Find (env : Env) (w : World) : list Doc * option error :=
  match fault env with
  | Some e => ([], Some e)
  | None => (collection w, None)
  end.

Definition ErrDuplicateKey : error := "E11000 duplicate key error".

(** [collection.InsertOne]: the store keeps [_id] unique. *)
Definition InsertOne (env : Env) (w : World) (d : Doc) : World * option error :=
  match fault env with
  | Some e => (w, Some e)
  | None =>
      if has_id (collection w) d then (w, Some ErrDuplicateKey)
      else (set_collection w (collection w ++ [d]), None)
  end.

(** [collection.UpdateOne] *)
Definition UpdateOne (env : Env) (w : World) (filter : Doc)
    (update : list (string * Doc)) : World * option error :=
  match fault env with
  | Some e => (w, Some e)
  | None => (set_collection w (update_first filter update (collection w)), None)
  end.

(** ** Library calls that are not written out

    [ShouldBindJSON body recipe] is gin's [c.ShouldBindJSON(&recipe)] on a
    request with that body and [Decode doc recipe] is the cursor's
    [cur.Decode(&recipe)] on that document: both give the contents of the
    struct after the call and the error returned.  [equalFoldUnicode] is
    the part of [strings.EqualFold] that starts at the first byte outside
    ASCII (label [hasUnicode]). *)
Class Libraries : Type := {
  ShouldBindJSON : string -> Recipe -> Recipe * option error;
  Decode : Doc -> Recipe -> Recipe * option error;
  equalFoldUnicode : string -> string -> bool
}.

Definition RuneSelf : Z := 128.

Definition byteZ (c : ascii) : Z := Z.of_nat (nat_of_ascii c).

(** The URL query of a request; [c.Query(key)] is the first value of the
    key, or the empty string when the key is absent. *)
Fixpoint Query (query : list (string * string)) (key : string) : string :=
  match query with
  | [] => ""
  | (k, v) :: query' => if String.eqb k key then v else Query query' key
  end.

Section Handlers.

Context `{Libraries}.

(** [strings.EqualFold]: the ASCII fast path. *)
Fixpoint EqualFold (s t : string) : bool :=
  match s, t with
  | String sc s', String tc t' =>
      let sr := byteZ sc in
      let tr := byteZ tc in
      if RuneSelf <=? Z.lor sr tr then equalFoldUnicode s t
      else if tr =? sr then EqualFold s' t'
      else
        let '(sr, tr) := if tr <? sr then (tr, sr) else (sr, tr) in
        if (65 <=? sr) && (sr <=? 90) && (tr =? (sr + 97 - 65) mod 256)
        then EqualFold s' t'
        else false
  | _, _ => Nat.eqb (String.length s) (String.length t)
  end.

(** [GET /recipes] *)
Definition ListRecipeHandler (env : Env) (w : World) : World * Response :=
  let '(cur, err) := Find env w in
  match err with
  | Some e => (w, JSON StatusInternalServerError (H [("error", e)]))
  | None =>
      let recipes : slice Recipe := make in
      let recipes :=
        fold_left (fun recipes doc =>
                     let recipe := zeroRecipe in
                     let '(recipe, _) := Decode doc recipe in
                     append recipes recipe) cur recipes in
      (w, JSON StatusOK (VRecipes recipes))
  end.

(** [POST /recipes] *)
Definition NewRecipeHandler (env : Env) (reqBody : string) (w : World)
    : World * Response :=
  let recipe := zeroRecipe in
  let '(recipe, e) := ShouldBindJSON reqBody recipe in
  match e with
  | Some e => (w, JSON StatusBadRequest (H [("error", e)]))
  | None =>
      let '(oid, w) := NewObjectID env w in
      let recipe := set_ID recipe oid in
      let recipe := set_PublishedAt recipe (Now env) in
      let '(w, e) := InsertOne env w (bsonMarshal recipe) in
      let w := set_err w e in
      match e with
      | Some e =>
          (Println w e,
           JSON StatusInternalServerError
                (H [("error", "Error while inserting a new recipe")]))
      | None => (w, JSON StatusOK (VRecipe recipe))
      end
  end.

(** The inner loop of the search: [found] is set by any tag that equals
    the query under [strings.EqualFold]. *)
Definition scanTags (tag : string) (tags : slice string) : bool :=
  fold_left (fun found t => if EqualFold t tag then true else found)
            (elems tags) false.

(** [GET /recipes/search] *)
Definition SearchRecipesHandler (query : list (string * string)) (w : World)
    : World * Response :=
  let tag := Query query "tag" in
  let listOfRecipes : slice Recipe := make in
  let listOfRecipes :=
    fold_left (fun listOfRecipes r =>
                 let found := scanTags tag (Tags r) in
                 if found then append listOfRecipes r else listOfRecipes)
              (elems (recipes w)) listOfRecipes in
  (w, JSON StatusOK (VRecipes listOfRecipes)).

(** [PUT /recipes/:id] *)
Definition UpdateRecipeHandler (env : Env) (id reqBody : string) (w : World)
    : World * Response :=
  let recipe := zeroRecipe in
  let '(recipe, e) := ShouldBindJSON reqBody recipe in
  match e with
  | Some e => (w, JSON StatusBadRequest (H [("error", e)]))
  | None =>
      let '(objectId, _) := ObjectIDFromHex id in
      let '(w, e) :=
        UpdateOne env w
          [("_id", BObjectID objectId)]
          [("$set", [("name", BString (Name recipe));
                     ("instructions", bsonStrings (Instructions recipe));
                     ("ingredients", bsonStrings (Ingredients recipe));
                     ("tags", bsonStrings (Tags recipe))])] in
      let w := set_err w e in
      match e with
      | Some e =>
          (Println w e, JSON StatusInternalServerError (H [("error", e)]))
      | None =>
          (w, JSON StatusOK (H [("message", "Recipe has been updated")]))
      end
  end.

(** ** The routing table of [main] *)

Inductive Request : Type :=
| POST_recipes (reqBody : string)
| GET_recipes
| GET_recipes_search (query : list (string * string))
| PUT_recipes_id (id reqBody : string).

Definition serve (env : Env) (req : Request) (w : World) : World * Response :=
  match req with
  | POST_recipes reqBody => NewRecipeHandler env reqBody w
  | GET_recipes => ListRecipeHandler env w
  | GET_recipes_search query => SearchRecipesHandler query w
  | PUT_recipes_id id reqBody => UpdateRecipeHandler env id reqBody w
  end.

(** The process after a sequence of requests, each met with its own
    surroundings. *)
Fixpoint run (w : World) (trace : list (Env * Request)) : World :=
  match trace with
  | [] => w
  | (env, req) :: trace' => run (fst (serve env req w)) trace'
  end.

End Handlers.

(** The process when [main] starts serving: [recipes] and [err] are nil
    ([init] returns only if the ping gave no error); the collection holds
    whatever the database holds. *)
Definition initWorld (counter : Z) (unique : list Z) (coll : list Doc) : World :=
  mkWorld None None counter unique [] coll.

(** ** An instance of the library calls, for the examples

    [structDecode] follows the driver's struct decoder: the elements of
    the document are read in order, an element whose key is a bson tag of
    Recipe is decoded into that field, other elements are skipped, and the
    first element that cannot be decoded ends the call with an error,
    leaving the fields already written as they are. *)

Definition set_Name (r : Recipe) (s : string) : Recipe :=
  mkRecipe (ID r) s (Tags r) (Ingredients r) (Instructions r) (PublishedAt r).

Definition set_Tags (r : Recipe) (s : slice string) : Recipe :=
  mkRecipe (ID r) (Name r) s (Ingredients r) (Instructions r) (PublishedAt r).

Definition set_Ingredients (r : Recipe) (s : slice string) : Recipe :=
  mkRecipe (ID r) (Name r) (Tags r) s (Instructions r) (PublishedAt r).

Definition set_Instructions (r : Recipe) (s : slice string) : Recipe :=
  mkRecipe (ID r) (Name r) (Tags r) (Ingredients r) s (PublishedAt r).

Fixpoint decodeStringList (l : list BVal) : option (list string) :=
  match l with
  | [] => Some []
  | BString s :: l' => option_map (cons s) (decodeStringList l')
  | _ :: _ => None
  end.

Definition decodeStrings (v : BVal) : option (slice string) :=
  match v with
  | BNull => Some None
  | BArray l => option_map Some (decodeStringList l)
  | _ => None
  end.

Definition decodeError (key : string) : error :=
  ("error decoding key " ++ key)%string.

Fixpoint structDecode (d : Doc) (r : Recipe) : Recipe * option error :=
  match d with
  | [] => (r, None)
  | (k, v) :: d' =>
      if String.eqb k "_id" then
        match v with
        | BObjectID o => structDecode d' (set_ID r o)
        | _ => (r, Some (decodeError k))
        end
      else if String.eqb k "name" then
        match v with
        | BString s => structDecode d' (set_Name r s)
        | _ => (r, Some (decodeError k))
        end
      else if String.eqb k "tags" then
        match decodeStrings v with
        | Some s => structDecode d' (set_Tags r s)
        | None => (r, Some (decodeError k))
        end
      else if String.eqb k "ingredients" then
        match decodeStrings v with
        | Some s => structDecode d' (set_Ingredients r s)
        | None => (r, Some (decodeError k))
        end
      else if String.eqb k "instructions" then
        match decodeStrings v with
        | Some s => structDecode d' (set_Instructions r s)
        | None => (r, Some (decodeError k))
        end
      else if String.eqb k "publishedAt" then
        match v with
        | BDateTime ms => structDecode d' (set_PublishedAt r (ms * 1000000))
        | _ => (r, Some (decodeError k))
        end
      else structDecode d' r
  end.

(** A JSON string literal. *)
Definition quoted (s : string) : string :=
  (String (ascii_of_nat 34) s ++ String (ascii_of_nat 34) EmptyString)%string.

(** The request body of the spec's example:
    name Pasta, tags [italian], ingredients [pasta, water],
    instructions [boil]. *)
Definition pastaBody : string :=
  ("{" ++ quoted "name" ++ ":" ++ quoted "Pasta" ++ ","
       ++ quoted "tags" ++ ":[" ++ quoted "italian" ++ "],"
       ++ quoted "ingredients" ++ ":[" ++ quoted "pasta" ++ ","
       ++ quoted "water" ++ "],"
       ++ quoted "instructions" ++ ":[" ++ quoted "boil" ++ "]}")%string.

(** A binder that knows two bodies, the empty object and [pastaBody], and
    rejects every other body. *)
Definition sampleBind (reqBody : string) (r : Recipe) : Recipe * option error :=
  if String.eqb reqBody "{}" then (r, None)
  else if String.eqb reqBody pastaBody then
    (mkRecipe (ID r) "Pasta" (Some ["italian"]) (Some ["pasta"; "water"])
              (Some ["boil"]) (PublishedAt r), None)
  else (r, Some "invalid character in request body").

(** Outside ASCII the sample folding only accepts identical strings. *)
Definition sampleLibraries : Libraries :=
  {| ShouldBindJSON := sampleBind;
     Decode := structDecode;
     equalFoldUnicode := String.eqb |}.

(** Sample data. *)
Definition oidA : ObjectID := [101; 66; 17; 0; 1; 2; 3; 4; 5; 0; 0; 7].

Definition sampleUnique : list Z := [1; 2; 3; 4; 5].

Definition pasta : Recipe :=
  mkRecipe oidA "Pasta" (Some ["italian"]) (Some ["pasta"; "water"])
           (Some ["boil"]) 1700000000000000000.

Definition untagged : Recipe :=
  mkRecipe NilObjectID "Plain" (Some [""]) None None zeroTime.

Definition calm : Env := mkEnv 1700000000000000000 1700000000000000001 None.

(** A document whose name is a number: its _id decodes, its name does
    not. *)
Definition badDoc : Doc := [("_id", BObjectID oidA); ("name", BInt32 5)].

(** A document whose _id is the zero object id. *)
Definition nilDoc : Doc :=
  [("_id", BObjectID NilObjectID); ("name", BString "old");
   ("publishedAt", BDateTime 5)].

Definition emptyStore : World := initWorld 41 sampleUnique [].

Definition pastaStore : World :=
  initWorld 41 sampleUnique [badDoc; bsonMarshal pasta; nilDoc].

(** A process whose [recipes] would hold two recipes. *)
Definition cached : World :=
  mkWorld (Some [pasta; untagged]) None 41 sampleUnique [] [].

Definition outage : Env :=
  mkEnv 1700000000000000000 1700000000000000001
        (Some "server selection error: context deadline exceeded").

(** ** What the spec says of the search

    A recipe matches a query when any of its tags equals the query under
    case-insensitive comparison; the result keeps the matching recipes in
    the order of the list. *)
Definition has_tag `{Libraries} (tag : string) (r : Recipe) : bool :=
  existsb (fun t => EqualFold t tag) (elems (Tags r)).

Definition matching_recipes `{Libraries} (tag : string) (cache : slice Recipe)
    : list Recipe :=
  filter (has_tag tag) (elems cache).

(** ASCII lower case, the comparison key of case-insensitive equality. *)
Definition toLower (c : ascii) : ascii :=
  let n := nat_of_ascii c in
  if (Nat.leb 65 n && Nat.leb n 90)%bool then ascii_of_nat (n + 32) else c.

Fixpoint lower (s : string) : string :=
  match s with
  | EmptyString => EmptyString
  | String c s' => String (toLower c) (lower s')
  end.

Fixpoint isASCII (s : string) : bool :=
  match s with
  | EmptyString => true
  | String c s' => (Nat.ltb (nat_of_ascii c) 128 && isASCII s')%bool
  end.

(** The same on character codes. *)
Definition lowerN (n : nat) : nat :=
  if (Nat.leb 65 n && Nat.leb n 90)%bool then (n + 32)%nat else n.

(** The keys written by the update handler. *)
Definition mutable_keys : list string :=
  ["name"; "instructions"; "ingredients"; "tags"].

Arguments uint32 : simpl never.
Arguments NewObjectIDFromTimestamp : simpl never.
Arguments bsonTime : simpl never.

(** ** Notions used to state properties of runs *)

(** The requests that [main] routes with GET, and those it routes with
    POST. *)
Definition isGET (req : Request) : bool :=
  match req with
  | GET_recipes | GET_recipes_search _ => true
  | _ => false
  end.

Definition isPOST (req : Request) : bool :=
  match req with
  | POST_recipes _ => true
  | _ => false
  end.

(** The number of create requests of a trace. *)
Definition posts (trace : list (Env * Request)) : nat :=
  List.length (filter (fun er => isPOST (snd er)) trace).

(** The _id of each stored document, in the order of the collection. *)
Definition ids (coll : list Doc) : list (option BVal) :=
  map (lookup "_id") coll.

(** [d'] holds the same value as [d] under every key that the update
    handler does not write. *)
Definition same_frame (d d' : Doc) : Prop :=
  forall k, ~ In k mutable_keys -> lookup k d' = lookup k d.

(** Twelve bytes. *)
Definition is_bytes12 (o : ObjectID) : bool :=
  Nat.eqb (List.length o) 12 && forallb (fun b => (0 <=? b) && (b <? 256)) o.

(** The stored document of a recipe after an update whose body bound to
    [body]: the four mutable fields are the body's, ID and PublishedAt
    the recipe's. *)
Definition updated (r body : Recipe) : Recipe :=
  mkRecipe (ID r) (Name body) (Tags body) (Ingredients body)
           (Instructions body) (PublishedAt r).

(** A byte is the value that its two hexadecimal digits decode to. *)
Definition hex_ok (b : Z) : bool :=
  match fromHexChar (hexDigit (Z.shiftr b 4)),
        fromHexChar (hexDigit (Z.land b 15)) with
  | Some p, Some q => Z.lor (Z.shiftl p 4) q =? b
  | _, _ => false
  end.

Definition is_byte (b : Z) : bool := (0 <=? b) && (b <? 256).

(** Whether every tag of every recipe of a list is ASCII. *)
Definition tagsASCII (cache : list Recipe) : bool :=
  forallb (fun r => forallb isASCII (elems (Tags r))) cache.

(** More sample data: a collection of two documents with different
    _id, a second recipe body, and the recipes that two creates on the
    empty collection answer with. *)
Definition twoDocs : World :=
  initWorld 41 sampleUnique [bsonMarshal pasta; nilDoc].

Definition firstCreated : Recipe :=
  mkRecipe [101; 83; 241; 0; 1; 2; 3; 4; 5; 0; 0; 42] "Pasta"
           (Some ["italian"]) (Some ["pasta"; "water"]) (Some ["boil"])
           1700000000000000001.

Definition secondCreated : Recipe :=
  mkRecipe [101; 83; 241; 0; 1; 2; 3; 4; 5; 0; 0; 43] "" None None None
           1700000000000000001.

(** ** JSON texts, and a binder that reads like a decoder

    [scanValue] recognises one JSON value (RFC 8259, as the scanner of
    encoding/json does) at the start of a text, after white space, and
    gives the text that follows it.  A text is well-formed JSON when it
    is one value followed by white space only.  gin's binding decodes
    with [json.NewDecoder(body).Decode], which reads the first value of
    the body and does not look at what follows it. *)

Definition code (c : ascii) : nat := nat_of_ascii c.

Definition isSpace (c : ascii) : bool :=
  let n := code c in
  (Nat.eqb n 32 || Nat.eqb n 9 || Nat.eqb n 10 || Nat.eqb n 13)%bool.

Fixpoint skipSpace (s : string) : string :=
  match s with
  | EmptyString => EmptyString
  | String c s' => if isSpace c then skipSpace s' else s
  end.

Definition isDigit (c : ascii) : bool :=
  (Nat.leb 48 (code c) && Nat.leb (code c) 57)%bool.

Definition isHexDigit (c : ascii) : bool :=
  match fromHexChar c with
  | Some _ => true
  | None => false
  end.

Fixpoint skipDigits (s : string) : string :=
  match s with
  | EmptyString => EmptyString
  | String c s' => if isDigit c then skipDigits s' else s
  end.

(** One digit or more. *)
Definition scanDigits (s : string) : option string :=
  match s with
  | String c s' => if isDigit c then Some (skipDigits s') else None
  | EmptyString => None
  end.

Definition scanInt (s : string) : option string :=
  match s with
  | String c s' =>
      if Nat.eqb (code c) 48 then Some s'
      else if isDigit c then Some (skipDigits s')
      else None
  | EmptyString => None
  end.

Definition scanFraction (s : string) : option string :=
  match s with
  | String c s' => if Nat.eqb (code c) 46 then scanDigits s' else Some s
  | EmptyString => Some s
  end.

Definition scanExponent (s : string) : option string :=
  match s with
  | String c s' =>
      if (Nat.eqb (code c) 101 || Nat.eqb (code c) 69)%bool then
        match s' with
        | String d s'' =>
            if (Nat.eqb (code d) 43 || Nat.eqb (code d) 45)%bool
            then scanDigits s'' else scanDigits s'
        | EmptyString => None
        end
      else Some s
  | EmptyString => Some s
  end.

Definition scanNumber (s : string) : option string :=
  let s := match s with
           | String c s' => if Nat.eqb (code c) 45 then s' else s
           | EmptyString => s
           end in
  match scanInt s with
  | Some s1 =>
      match scanFraction s1 with
      | Some s2 => scanExponent s2
      | None => None
      end
  | None => None
  end.

Definition isEscape (c : ascii) : bool :=
  existsb (Nat.eqb (code c)) [34; 92; 47; 98; 102; 110; 114; 116]%nat.

(** The rest of a string literal, after its opening quote. *)
Fixpoint scanString (s : string) : option string :=
  match s with
  | EmptyString => None
  | String c s' =>
      if Nat.eqb (code c) 34 then Some s'
      else if Nat.eqb (code c) 92 then
        match s' with
        | String e s'' =>
            if isEscape e then scanString s''
            else if Nat.eqb (code e) 117 then
              match s'' with
              | String h1 (String h2 (String h3 (String h4 s3))) =>
                  if (isHexDigit h1 && isHexDigit h2
                      && isHexDigit h3 && isHexDigit h4)%bool
                  then scanString s3 else None
              | _ => None
              end
            else None
        | EmptyString => None
        end
      else if Nat.ltb (code c) 32 then None
      else scanString s'
  end.

Fixpoint stripPrefix (p s : string) : option string :=
  match p, s with
  | EmptyString, _ => Some s
  | String a p', String b s' => if Ascii.eqb a b then stripPrefix p' s' else None
  | String _ _, EmptyString => None
  end.

(** The elements of an array after the first bracket, and the members of
    an object after the first brace, given the scanner of values. *)
Fixpoint scanElements (scan : string -> option string) (fuel : nat)
    (s : string) : option string :=
  match fuel with
  | O => None
  | S fuel' =>
      match scan s with
      | Some r =>
          match skipSpace r with
          | String c r' =>
              if Nat.eqb (code c) 44 then scanElements scan fuel' r'
              else if Nat.eqb (code c) 93 then Some r'
              else None
          | EmptyString => None
          end
      | None => None
      end
  end.

Fixpoint scanMembers (scan : string -> option string) (fuel : nat)
    (s : string) : option string :=
  match fuel with
  | O => None
  | S fuel' =>
      match skipSpace s with
      | String q k =>
          if Nat.eqb (code q) 34 then
            match scanString k with
            | Some r =>
                match skipSpace r with
                | String c v =>
                    if Nat.eqb (code c) 58 then
                      match scan v with
                      | Some r2 =>
                          match skipSpace r2 with
                          | String c3 r3 =>
                              if Nat.eqb (code c3) 44
                              then scanMembers scan fuel' r3
                              else if Nat.eqb (code c3) 125 then Some r3
                              else None
                          | EmptyString => None
                          end
                      | None => None
                      end
                    else None
                | EmptyString => None
                end
            | None => None
            end
          else None
      | EmptyString => None
      end
  end.

Fixpoint scanValue (fuel : nat) (s : string) : option string :=
  match fuel with
  | O => None
  | S fuel' =>
      match skipSpace s with
      | EmptyString => None
      | String c s' =>
          let n := code c in
          if Nat.eqb n 123 then
            match skipSpace s' with
            | String c' r =>
                if Nat.eqb (code c') 125 then Some r
                else scanMembers (scanValue fuel') (String.length s') s'
            | EmptyString => None
            end
          else if Nat.eqb n 91 then
            match skipSpace s' with
            | String c' r =>
                if Nat.eqb (code c') 93 then Some r
                else scanElements (scanValue fuel') (String.length s') s'
            | EmptyString => None
            end
          else if Nat.eqb n 34 then scanString s'
          else if Nat.eqb n 116 then stripPrefix "true" (String c s')
          else if Nat.eqb n 102 then stripPrefix "false" (String c s')
          else if Nat.eqb n 110 then stripPrefix "null" (String c s')
          else scanNumber (String c s')
      end
  end.

(** The text after the first JSON value of a body, if it starts with
    one. *)
Definition afterFirstValue (reqBody : string) : option string :=
  scanValue (S (String.length reqBody)) reqBody.

Definition wellFormedJSON (text : string) : bool :=
  match afterFirstValue text with
  | Some rest => String.eqb (skipSpace rest) ""
  | None => false
  end.

(** The first JSON value of a body, as text. *)
Definition firstValue (reqBody : string) : option string :=
  match afterFirstValue reqBody with
  | Some rest =>
      let text := skipSpace reqBody in
      Some (substring 0 (String.length text - String.length rest) text)
  | None => None
  end.

(** The sample binder behind a decoder: the first value of the body is
    bound and what follows it is not read. *)
Definition streamBind (reqBody : string) (r : Recipe) : Recipe * option error :=
  match firstValue reqBody with
  | Some text => sampleBind text r
  | None => (r, Some "invalid character in request body")
  end.

Definition streamLibraries : Libraries :=
  {| ShouldBindJSON := streamBind;
     Decode := structDecode;
     equalFoldUnicode := String.eqb |}.


(** * Properties *)

(** ** Loops over slices *)

Lemma fold_append_filter {A : Type} (p : A -> bool) (l acc : list A) :
  fold_left (fun s x => if p x then append s x else s) l (Some acc)
  = Some (acc ++ filter p l).
Proof.
  revert acc; induction l as [|x l IH]; intros acc; simpl.
  - now rewrite app_nil_r.
  - destruct (p x).
    + change (append (Some acc) x) with (Some (acc ++ [x])).
      rewrite IH, <- app_assoc. reflexivity.
    + apply IH.
Qed.

Lemma fold_found {A : Type} (p : A -> bool) (l : list A) (found : bool) :
  fold_left (fun found t => if p t then true else found) l found
  = (found || existsb p l)%bool.
Proof.
  revert found; induction l as [|t l IH]; intros found; simpl.
  - now rewrite orb_false_r.
  - rewrite IH. destruct (p t), found; reflexivity.
Qed.

Section Search.

Context {L : Libraries}.

Lemma scanTags_has_tag (tag : string) (r : Recipe) :
  scanTags tag (Tags r) = has_tag tag r.
Proof. unfold scanTags, has_tag. now rewrite fold_found. Qed.

Lemma search_loop (tag : string) (cache : list Recipe) :
  fold_left (fun listOfRecipes r =>
               let found := scanTags tag (Tags r) in
               if found then append listOfRecipes r else listOfRecipes)
            cache make
  = Some (filter (has_tag tag) cache).
Proof.
  unfold make.
  change (filter (has_tag tag) cache) with ([] ++ filter (has_tag tag) cache).
  rewrite <- fold_append_filter.
  generalize (Some (@nil Recipe)).
  induction cache as [|r cache IH]; intros s; simpl.
  - reflexivity.
  - rewrite scanTags_has_tag. apply IH.
Qed.

(** Only the empty string equals the empty string under the folding. *)
Lemma EqualFold_empty (t : string) :
  EqualFold t "" = true <-> t = "".
Proof.
  destruct t as [|c t]; simpl; split; intros E; try reflexivity; discriminate.
Qed.

Lemma has_tag_empty (r : Recipe) :
  has_tag "" r = existsb (String.eqb "") (elems (Tags r)).
Proof.
  unfold has_tag. induction (elems (Tags r)) as [|t l IH]; simpl.
  - reflexivity.
  - rewrite IH. now destruct t.
Qed.

(** *** On ASCII strings the folding is equality of the lower-cased strings *)

Lemma nat_of_toLower (c : ascii) :
  nat_of_ascii (toLower c) = lowerN (nat_of_ascii c).
Proof.
  unfold toLower, lowerN.
  destruct (Nat.leb 65 (nat_of_ascii c) && Nat.leb (nat_of_ascii c) 90)%bool
    eqn:E; [|reflexivity].
  apply andb_true_iff in E as [_ E]. apply Nat.leb_le in E.
  apply nat_ascii_embedding. lia.
Qed.

Lemma toLower_eqb (a b : ascii) :
  Ascii.eqb (toLower a) (toLower b)
  = Nat.eqb (lowerN (nat_of_ascii a)) (lowerN (nat_of_ascii b)).
Proof.
  rewrite <- !nat_of_toLower.
  destruct (Ascii.eqb_spec (toLower a) (toLower b)) as [E|N].
  - rewrite E. symmetry. apply Nat.eqb_refl.
  - symmetry. apply Nat.eqb_neq. intros E. apply N.
    rewrite <- (ascii_nat_embedding (toLower a)),
            <- (ascii_nat_embedding (toLower b)).
    now rewrite E.
Qed.

Lemma lor_below_RuneSelf (a b : Z) :
  0 <= a < 128 -> 0 <= b < 128 -> (RuneSelf <=? Z.lor a b) = false.
Proof.
  intros Ha Hb. apply Z.leb_gt. unfold RuneSelf.
  assert (N : 0 <= Z.lor a b) by (apply Z.lor_nonneg; lia).
  destruct (Z.eq_dec (Z.lor a b) 0) as [->|NZ]; [lia|].
  change 128 with (2 ^ 7). apply Z.log2_lt_pow2; [lia|].
  rewrite Z.log2_lor by lia.
  assert (Z.log2 a < 7).
  { destruct (Z.eq_dec a 0) as [->|]; [reflexivity|].
    apply Z.log2_lt_pow2; [lia|]. change (2 ^ 7) with 128. lia. }
  assert (Z.log2 b < 7).
  { destruct (Z.eq_dec b 0) as [->|]; [reflexivity|].
    apply Z.log2_lt_pow2; [lia|]. change (2 ^ 7) with 128. lia. }
  lia.
Qed.

Lemma EqualFold_ascii (s t : string) :
  isASCII s = true -> isASCII t = true ->
  EqualFold s t = String.eqb (lower s) (lower t).
Proof.
  revert t; induction s as [|sc s IH]; intros [|tc t] Hs Ht;
    try reflexivity.
  simpl in Hs, Ht.
  apply andb_true_iff in Hs as [Hsc Hs]; apply andb_true_iff in Ht as [Htc Ht].
  apply Nat.ltb_lt in Hsc, Htc.
  cbn [EqualFold lower String.eqb].
  rewrite toLower_eqb, <- (IH t Hs Ht).
  unfold byteZ, lowerN.
  set (n := nat_of_ascii sc) in *. set (m := nat_of_ascii tc) in *.
  clearbody n m.
  rewrite lor_below_RuneSelf by lia.
  destruct (Z.eqb_spec (Z.of_nat m) (Z.of_nat n)) as [E|NE].
  - apply Nat2Z.inj in E. subst m. now rewrite Nat.eqb_refl.
  - assert (NE' : n <> m) by (intros ->; now apply NE).
    destruct (Z.ltb_spec (Z.of_nat m) (Z.of_nat n)) as [LT|GE];
      repeat match goal with
             | |- context [Nat.leb ?a ?b] => destruct (Nat.leb_spec a b)
             | |- context [Z.leb ?a ?b] => destruct (Z.leb_spec a b)
             end; cbn [andb];
      try lia;
      repeat match goal with
             | |- context [Z.eqb ?a ?b] => destruct (Z.eqb_spec a b)
             | |- context [Nat.eqb ?a ?b] => destruct (Nat.eqb_spec a b)
             end; try reflexivity; exfalso;
      try rewrite Z.mod_small in * by lia; lia.
Qed.

End Search.

(** ** The search and list operations *)

Section SearchAndList.

Context {L : Libraries}.

(** C3: for every query and every cached list, the search responds with
    HTTP 200 and with exactly the cached recipes that have a tag equal to
    the query under [strings.EqualFold], in the order of the cache; on
    ASCII strings that equality is equality of the lower-cased strings. *)
Theorem search_returns_matching_recipes
    (query : list (string * string)) (w : World) :
  SearchRecipesHandler query w
  = (w, JSON StatusOK
             (VRecipes (Some (matching_recipes (Query query "tag") (recipes w)))))
  /\ (forall r : Recipe,
        In r (matching_recipes (Query query "tag") (recipes w)) <->
        (In r (elems (recipes w))
         /\ exists t, In t (elems (Tags r))
                      /\ EqualFold t (Query query "tag") = true))
  /\ (forall t tag : string,
        isASCII t && isASCII tag = true ->
        EqualFold t tag = String.eqb (lower t) (lower tag)).
Proof.
  split; [|split].
  - unfold SearchRecipesHandler. now rewrite search_loop.
  - intros r. unfold matching_recipes. rewrite filter_In.
    unfold has_tag. now rewrite existsb_exists.
  - intros t tag E. apply andb_true_iff in E as [Et Etag].
    now apply EqualFold_ascii.
Qed.

(** C7 (amended): when the [tag] parameter is absent or empty the search
    returns the cached recipes that carry an empty tag, and so the empty
    list when no cached recipe carries one. *)
Theorem search_without_tag (query : list (string * string)) (w : World) :
  Query query "tag" = "" ->
  snd (SearchRecipesHandler query w)
  = JSON StatusOK
         (VRecipes (Some (filter (fun r => existsb (String.eqb "") (elems (Tags r)))
                                 (elems (recipes w)))))
  /\ (forallb (fun r => negb (existsb (String.eqb "") (elems (Tags r))))
              (elems (recipes w)) = true ->
      snd (SearchRecipesHandler query w) = JSON StatusOK (VRecipes (Some []))).
Proof.
  intros Q.
  assert (E : snd (SearchRecipesHandler query w)
              = JSON StatusOK
                  (VRecipes (Some (filter (fun r => existsb (String.eqb "") (elems (Tags r)))
                                          (elems (recipes w)))))).
  { unfold SearchRecipesHandler. rewrite search_loop, Q. simpl.
    do 3 f_equal. apply filter_ext. intros r. apply has_tag_empty. }
  split; [exact E|].
  intros N. rewrite E. clear E. do 3 f_equal.
  induction (elems (recipes w)) as [|r l IH]; simpl in *; [reflexivity|].
  apply andb_true_iff in N as [Nr Nl].
  apply negb_true_iff in Nr. rewrite Nr. now apply IH.
Qed.

(** Every handler leaves the package-level [recipes] as it found it. *)
Lemma serve_keeps_recipes (env : Env) (req : Request) (w : World) :
  recipes (fst (serve env req w)) = recipes w.
Proof.
  destruct req as [reqBody | | query | id reqBody]; simpl.
  - unfold NewRecipeHandler.
    destruct (ShouldBindJSON reqBody zeroRecipe) as [r [e|]]; [reflexivity|].
    simpl. unfold InsertOne; simpl.
    destruct (fault env); [reflexivity|].
    match goal with |- context [has_id ?c ?d] => destruct (has_id c d) end;
      reflexivity.
  - unfold ListRecipeHandler, Find. destruct (fault env); reflexivity.
  - reflexivity.
  - unfold UpdateRecipeHandler.
    destruct (ShouldBindJSON reqBody zeroRecipe) as [r [e|]]; [reflexivity|].
    destruct (ObjectIDFromHex id) as [objectId e]. unfold UpdateOne.
    destruct (fault env); reflexivity.
Qed.

Lemma run_keeps_recipes (trace : list (Env * Request)) (w : World) :
  recipes (run w trace) = recipes w.
Proof.
  revert w; induction trace as [|[env req] trace IH]; intros w; simpl.
  - reflexivity.
  - now rewrite IH, serve_keeps_recipes.
Qed.

(** C8: after any sequence of requests served from the start of the
    process, whatever the database holds, the package-level [recipes] is
    still nil and the search answers every query with the empty list. *)
Theorem search_cache_never_assigned
    (counter : Z) (unique : list Z) (coll : list Doc)
    (trace : list (Env * Request)) (query : list (string * string)) :
  let w := run (initWorld counter unique coll) trace in
  recipes w = None
  /\ snd (SearchRecipesHandler query w) = JSON StatusOK (VRecipes (Some [])).
Proof.
  intros w.
  assert (E : recipes w = None) by (unfold w; now rewrite run_keeps_recipes).
  split; [exact E|].
  unfold SearchRecipesHandler. now rewrite E.
Qed.

(** The loop of the list handler appends, for each document of the
    cursor, the struct as [Decode] left it. *)
Lemma list_loop (cur : list Doc) (acc : list Recipe) :
  fold_left (fun recipes doc =>
               let recipe := zeroRecipe in
               let '(recipe, _) := Decode doc recipe in
               append recipes recipe) cur (Some acc)
  = Some (acc ++ map (fun doc => fst (Decode doc zeroRecipe)) cur).
Proof.
  revert acc; induction cur as [|doc cur IH]; intros acc; simpl.
  - now rewrite app_nil_r.
  - destruct (Decode doc zeroRecipe) as [recipe e]; simpl.
    change (append (Some acc) recipe) with (Some (acc ++ [recipe])).
    rewrite IH, <- app_assoc. reflexivity.
Qed.

(** C9: when the storage query yields no document, and when no cached
    recipe matches the query, the body of the response marshals to the
    empty JSON array, not to null. *)
Theorem empty_results_marshal_as_array
    (env : Env) (query : list (string * string)) (w : World) :
  (Find env w = ([], None) ->
   jsonMarshal (body (snd (ListRecipeHandler env w))) = JArray []
   /\ status (snd (ListRecipeHandler env w)) = StatusOK)
  /\ (matching_recipes (Query query "tag") (recipes w) = [] ->
      jsonMarshal (body (snd (SearchRecipesHandler query w))) = JArray []
      /\ status (snd (SearchRecipesHandler query w)) = StatusOK)
  /\ JArray [] <> JNull.
Proof.
  split; [|split].
  - intros F. unfold ListRecipeHandler. rewrite F. simpl. split; reflexivity.
  - intros M. unfold SearchRecipesHandler. rewrite search_loop.
    unfold matching_recipes in M. rewrite M. split; reflexivity.
  - discriminate.
Qed.

(** C10 (amended): when the storage query succeeds the list operation
    responds with HTTP 200 and one entry per document of the cursor, in
    order; the entry is the recipe variable as the decoding of the
    document left it, the error of the decoding being ignored, and so the
    zero-valued recipe whenever the failed decoding wrote no field. *)
Theorem list_ignores_decode_errors (env : Env) (w : World) :
  fault env = None ->
  let entries := map (fun doc => fst (Decode doc zeroRecipe)) (collection w) in
  ListRecipeHandler env w = (w, JSON StatusOK (VRecipes (Some entries)))
  /\ List.length entries = List.length (collection w)
  /\ (forall i doc, nth_error (collection w) i = Some doc ->
        nth_error entries i = Some (fst (Decode doc zeroRecipe)))
  /\ (forall i doc, nth_error (collection w) i = Some doc ->
        fst (Decode doc zeroRecipe) = zeroRecipe ->
        nth_error entries i = Some zeroRecipe).
Proof.
  intros F entries.
  assert (N : forall i doc, nth_error (collection w) i = Some doc ->
                nth_error entries i = Some (fst (Decode doc zeroRecipe))).
  { intros i doc E. unfold entries. now rewrite nth_error_map, E. }
  split; [|split; [|split]].
  - unfold ListRecipeHandler, Find. rewrite F. unfold make.
    now rewrite list_loop.
  - unfold entries. apply length_map.
  - exact N.
  - intros i doc E Z. rewrite (N i doc E). now rewrite Z.
Qed.

End SearchAndList.

(** ** Object identifiers *)

Lemma ObjectID_eqb_eq (a b : ObjectID) :
  ObjectID_eqb a b = true <-> a = b.
Proof.
  revert b; induction a as [|x a IH]; intros [|y b]; simpl;
    split; intros E; try reflexivity; try discriminate.
  - apply andb_true_iff in E as [Ex Ea].
    apply Z.eqb_eq in Ex. apply IH in Ea. now subst.
  - injection E as -> ->. rewrite Z.eqb_refl. now apply IH.
Qed.

Lemma byte_of_mod (v : Z) : byte_of v = v mod 256.
Proof. unfold byte_of. change 255 with (Z.ones 8). now rewrite Z.land_ones. Qed.

(** The three bytes written by [putUint24] hold the counter modulo 2^24. *)
Lemma putUint24_inj (a b : Z) :
  putUint24 a = putUint24 b -> a mod 2 ^ 24 = b mod 2 ^ 24.
Proof.
  unfold putUint24. rewrite !byte_of_mod, !Z.shiftr_div_pow2 by lia.
  change (2 ^ 16) with 65536. change (2 ^ 8) with 256.
  change (2 ^ 24) with 16777216.
  intros E. injection E as E2 E1 E0.
  Z.div_mod_to_equations. lia.
Qed.

Lemma app4_inv (a b c d a' b' c' d' : Z) (u x y : list Z) :
  [a; b; c; d] ++ u ++ x = [a'; b'; c'; d'] ++ u ++ y -> x = y.
Proof.
  intros E. injection E as _ _ _ _ E. exact (app_inv_head _ _ _ E).
Qed.

(** Two identifiers generated in one process differ as soon as their
    counters differ modulo 2^24. *)
Lemma NewObjectIDFromTimestamp_distinct
    (t t' : Time) (unique : list Z) (c c' : Z) :
  c mod 2 ^ 24 <> c' mod 2 ^ 24 ->
  NewObjectIDFromTimestamp t unique c <> NewObjectIDFromTimestamp t' unique c'.
Proof.
  intros N E. apply N. apply putUint24_inj.
  unfold NewObjectIDFromTimestamp, PutUint32 in E.
  exact (app4_inv _ _ _ _ _ _ _ _ _ _ _ E).
Qed.

(** ** The collection *)

Lemma lookup_set_field (k k' : string) (v : BVal) (d : Doc) :
  lookup k (set_field k' v d)
  = if String.eqb k' k then Some v else lookup k d.
Proof.
  induction d as [|[k0 v0] d IH]; simpl.
  - reflexivity.
  - destruct (String.eqb_spec k0 k') as [->|N0]; simpl.
    + destruct (String.eqb k' k); reflexivity.
    + rewrite IH.
      destruct (String.eqb_spec k0 k) as [->|N1]; [|reflexivity].
      destruct (String.eqb_spec k' k) as [->|N2]; [congruence|reflexivity].
Qed.

Lemma lookup_apply_set_other (k : string) (fields d : Doc) :
  ~ In k (map fst fields) -> lookup k (apply_set fields d) = lookup k d.
Proof.
  unfold apply_set. revert d.
  induction fields as [|[k' v] fields IH]; intros d N; simpl.
  - reflexivity.
  - rewrite IH by (intros I; apply N; now right).
    rewrite lookup_set_field.
    destruct (String.eqb_spec k' k) as [->|_]; [|reflexivity].
    exfalso. apply N. now left.
Qed.

Lemma matches_id (o : ObjectID) (d : Doc) :
  matches [("_id", BObjectID o)] d = true
  <-> lookup "_id" d = Some (BObjectID o).
Proof.
  unfold matches. cbn [forallb fst snd]. rewrite andb_true_r.
  destruct (lookup "_id" d) as [v|]; split; intros E; try discriminate.
  - destruct v; try discriminate. cbn [BVal_eqb] in E.
    apply ObjectID_eqb_eq in E. now subst.
  - injection E as ->. cbn [BVal_eqb]. now apply ObjectID_eqb_eq.
Qed.

(** [update_first] rewrites the first selected document and nothing
    else. *)
Lemma update_first_split (filter : Doc) (update : list (string * Doc))
    (coll : list Doc) :
  (update_first filter update coll = coll
   /\ forall d, In d coll -> matches filter d = false)
  \/ exists pre d post,
       coll = pre ++ d :: post
       /\ (forall d0, In d0 pre -> matches filter d0 = false)
       /\ matches filter d = true
       /\ update_first filter update coll
          = pre ++ apply_update update d :: post.
Proof.
  induction coll as [|d coll IH]; simpl.
  - left. split; [reflexivity|]. intros d [].
  - destruct (matches filter d) eqn:M.
    + right. exists [], d, coll. repeat split; try assumption.
      intros d0 [].
    + destruct IH as [[E N]|(pre & d1 & post & E & N & M1 & U)].
      * left. split; [now rewrite E|].
        intros d0 [<-|I]; [assumption|now apply N].
      * right. exists (d :: pre), d1, post. repeat split.
        -- now rewrite E.
        -- intros d0 [<-|I]; [assumption|now apply N].
        -- assumption.
        -- now rewrite U.
Qed.


(** ** The create and update operations *)

Section CreateAndUpdate.

Context {L : Libraries}.

(** C4 (amended): a create or update request whose body the binding
    rejects is answered with HTTP 400 and the error of the binding, and
    the process and the collection are left as they were; a request
    whose body the binding accepts is never answered with HTTP 400.
    What the binding rejects is for gin to say: it decodes the first
    JSON value of the body and does not read what follows. *)
Theorem malformed_body_is_rejected
    (env : Env) (id reqBody : string) (w : World) :
  (forall e : error,
     snd (ShouldBindJSON reqBody zeroRecipe) = Some e ->
     NewRecipeHandler env reqBody w
     = (w, JSON StatusBadRequest (H [("error", e)]))
     /\ UpdateRecipeHandler env id reqBody w
        = (w, JSON StatusBadRequest (H [("error", e)])))
  /\ (snd (ShouldBindJSON reqBody zeroRecipe) = None ->
      status (snd (NewRecipeHandler env reqBody w)) <> StatusBadRequest
      /\ status (snd (UpdateRecipeHandler env id reqBody w))
         <> StatusBadRequest).
Proof.
  split.
  - intros e B. unfold NewRecipeHandler, UpdateRecipeHandler.
    destruct (ShouldBindJSON reqBody zeroRecipe) as [r e0].
    cbn [snd] in B. subst e0. split; reflexivity.
  - intros B. split.
    + unfold NewRecipeHandler.
      destruct (ShouldBindJSON reqBody zeroRecipe) as [r e0].
      cbn [snd] in B. subst e0.
      cbn [NewObjectID]. unfold InsertOne. cbn [fault collection].
      destruct (fault env); [discriminate|].
      match goal with |- context [has_id ?c ?d] => destruct (has_id c d) end;
        discriminate.
    + unfold UpdateRecipeHandler.
      destruct (ShouldBindJSON reqBody zeroRecipe) as [r e0].
      cbn [snd] in B. subst e0.
      destruct (ObjectIDFromHex id) as [objectId e1]. unfold UpdateOne.
      destruct (fault env); discriminate.
Qed.


(** C5: when the body binds and the storage insert fails, the create
    operation answers HTTP 500 with the fixed message "Error while
    inserting a new recipe", the same for every error of the store; the
    error text goes to the standard output and the collection is left as
    it was. *)
Theorem insert_failure_is_reported_generically
    (env : Env) (reqBody : string) (w : World) (e : error) :
  let input := fst (ShouldBindJSON reqBody zeroRecipe) in
  let stored := set_PublishedAt (set_ID input (fst (NewObjectID env w))) (Now env) in
  snd (ShouldBindJSON reqBody zeroRecipe) = None ->
  snd (InsertOne env (snd (NewObjectID env w)) (bsonMarshal stored)) = Some e ->
  snd (NewRecipeHandler env reqBody w)
  = JSON StatusInternalServerError
         (H [("error", "Error while inserting a new recipe")])
  /\ collection (fst (NewRecipeHandler env reqBody w)) = collection w
  /\ stdout (fst (NewRecipeHandler env reqBody w)) = stdout w ++ [e].
Proof.
  intros input stored B I.
  unfold NewRecipeHandler. unfold stored, input in *.
  destruct (ShouldBindJSON reqBody zeroRecipe) as [r e0].
  cbn [snd fst] in *. subst e0.
  cbn [NewObjectID fst snd] in *. unfold InsertOne in *.
  cbn [collection fault] in *.
  destruct (fault env) as [e1|].
  - cbn [snd] in I. injection I as ->. repeat split.
  - match type of I with context [has_id ?c ?d] => destruct (has_id c d) end.
    + cbn [snd] in I. injection I as <-. repeat split.
    + discriminate.
Qed.

(** The documents the update handler asks the store to change and what
    it asks to set in them. *)
Lemma update_handler_store
    (env : Env) (id reqBody : string) (w : World) :
  snd (ShouldBindJSON reqBody zeroRecipe) = None ->
  let recipe := fst (ShouldBindJSON reqBody zeroRecipe) in
  UpdateRecipeHandler env id reqBody w
  = match fault env with
    | Some e =>
        (Println (set_err w (Some e)) e,
         JSON StatusInternalServerError (H [("error", e)]))
    | None =>
        (set_err
           (set_collection w
              (update_first
                 [("_id", BObjectID (fst (ObjectIDFromHex id)))]
                 [("$set", [("name", BString (Name recipe));
                            ("instructions", bsonStrings (Instructions recipe));
                            ("ingredients", bsonStrings (Ingredients recipe));
                            ("tags", bsonStrings (Tags recipe))])]
                 (collection w))) None,
         JSON StatusOK (H [("message", "Recipe has been updated")]))
    end.
Proof.
  intros B recipe. unfold UpdateRecipeHandler, recipe.
  destruct (ShouldBindJSON reqBody zeroRecipe) as [r e0].
  cbn [snd fst] in *. subst e0.
  destruct (ObjectIDFromHex id) as [objectId e1]. unfold UpdateOne.
  destruct (fault env); reflexivity.
Qed.



End CreateAndUpdate.

(** ** The properties on the sample data *)





(** C3 on the spec's example: ITALIAN finds the recipe tagged italian. *)
Lemma search_returns_matching_recipes_witness :
  snd (@SearchRecipesHandler sampleLibraries [("tag", "ITALIAN")] cached)
  = JSON StatusOK (VRecipes (Some [pasta]))
  /\ @EqualFold sampleLibraries "italian" "ITALIAN" = true.
Proof.
  destruct (@search_returns_matching_recipes sampleLibraries
              [("tag", "ITALIAN")] cached) as (A & _ & C).
  split.
  - rewrite A. reflexivity.
  - rewrite (C "italian" "ITALIAN" eq_refl). reflexivity.
Defined.

(** C4 on a body that stops after its opening brace. *)
Lemma malformed_body_is_rejected_witness :
  @NewRecipeHandler sampleLibraries calm "{" pastaStore
  = (pastaStore,
     JSON StatusBadRequest (H [("error", "invalid character in request body")]))
  /\ @UpdateRecipeHandler sampleLibraries calm "654211000102030405000007" "{"
                          pastaStore
     = (pastaStore,
        JSON StatusBadRequest (H [("error", "invalid character in request body")])).
Proof.
  exact (proj1 (@malformed_body_is_rejected sampleLibraries calm
                  "654211000102030405000007" "{" pastaStore)
               "invalid character in request body" eq_refl).
Defined.

(** C4, as stated, fails on a body that is a JSON value followed by
    other text: it is not well-formed JSON, the decoder binds its first
    value, and both operations answer HTTP 200 and write to the
    collection. *)
Lemma trailing_text_is_bound :
  wellFormedJSON "{} x" = false
  /\ firstValue "{} x" = Some "{}"
  /\ snd (streamBind "{} x" zeroRecipe) = None
  /\ status (snd (@NewRecipeHandler streamLibraries calm "{} x" emptyStore))
     = StatusOK
  /\ List.length
       (collection (fst (@NewRecipeHandler streamLibraries calm "{} x"
                                           emptyStore))) = 1%nat
  /\ status (snd (@UpdateRecipeHandler streamLibraries calm
                    "654211000102030405000007" "{} x" twoDocs))
     = StatusOK
  /\ collection (fst (@UpdateRecipeHandler streamLibraries calm
                        "654211000102030405000007" "{} x" twoDocs))
     <> collection twoDocs.
Proof. repeat split. discriminate. Qed.

(** C5 when the store cannot be reached. *)
Lemma insert_failure_is_reported_generically_witness :
  snd (@NewRecipeHandler sampleLibraries outage pastaBody emptyStore)
  = JSON StatusInternalServerError
         (H [("error", "Error while inserting a new recipe")])
  /\ collection (fst (@NewRecipeHandler sampleLibraries outage pastaBody
                                        emptyStore)) = []
  /\ stdout (fst (@NewRecipeHandler sampleLibraries outage pastaBody emptyStore))
     = ["server selection error: context deadline exceeded"].
Proof.
  exact (@insert_failure_is_reported_generically sampleLibraries outage
           pastaBody emptyStore
           "server selection error: context deadline exceeded"
           eq_refl eq_refl).
Defined.



(** C7 (amended) on a request without the tag parameter. *)
Lemma search_without_tag_witness :
  snd (@SearchRecipesHandler sampleLibraries [("page", "2")] emptyStore)
  = JSON StatusOK (VRecipes (Some [])).
Proof.
  destruct (@search_without_tag sampleLibraries [("page", "2")] emptyStore
              eq_refl) as [_ A].
  exact (A eq_refl).
Defined.

(** C7, as stated, fails on a cache that holds a recipe with an empty
    tag: the search without a tag returns that recipe. *)
Lemma search_without_tag_finds_empty_tag :
  Query [] "tag" = ""
  /\ snd (@SearchRecipesHandler sampleLibraries [] cached)
     = JSON StatusOK (VRecipes (Some [untagged]))
  /\ snd (@SearchRecipesHandler sampleLibraries [("tag", "")] cached)
     = JSON StatusOK (VRecipes (Some [untagged])).
Proof. repeat split. Qed.

(** C9 on an empty collection and on a tag that no cached recipe has. *)
Lemma empty_results_marshal_as_array_witness :
  jsonMarshal (body (snd (@ListRecipeHandler sampleLibraries calm emptyStore)))
  = JArray []
  /\ jsonMarshal
       (body (snd (@SearchRecipesHandler sampleLibraries [("tag", "french")]
                                         cached)))
     = JArray [].
Proof.
  destruct (@empty_results_marshal_as_array sampleLibraries calm
              [("tag", "french")] emptyStore) as (A & _ & _).
  destruct (@empty_results_marshal_as_array sampleLibraries calm
              [("tag", "french")] cached) as (_ & B & _).
  split.
  - exact (proj1 (A eq_refl)).
  - exact (proj1 (B eq_refl)).
Defined.

(** C10 (amended) on a collection whose first document fails to decode. *)
Lemma list_ignores_decode_errors_witness :
  snd (structDecode badDoc zeroRecipe) = Some (decodeError "name")
  /\ snd (@ListRecipeHandler sampleLibraries calm pastaStore)
     = JSON StatusOK
            (VRecipes (Some [set_ID zeroRecipe oidA;
                             set_PublishedAt pasta 1700000000000000000;
                             set_PublishedAt (set_Name zeroRecipe "old")
                                             5000000])).
Proof.
  split; [reflexivity|].
  destruct (@list_ignores_decode_errors sampleLibraries calm pastaStore eq_refl)
    as (A & _).
  rewrite A. reflexivity.
Defined.

(** C10, as stated, fails on a document whose first elements decode: the
    decoding of [badDoc] returns an error after it has written ID, and
    the entry of the response is that recipe, not the zero-valued one. *)
Lemma failed_decode_entry_is_not_zero :
  snd (structDecode badDoc zeroRecipe) = Some (decodeError "name")
  /\ body (snd (@ListRecipeHandler sampleLibraries calm
                  (initWorld 41 sampleUnique [badDoc])))
     = VRecipes (Some [set_ID zeroRecipe oidA])
  /\ set_ID zeroRecipe oidA <> zeroRecipe.
Proof. repeat split. discriminate. Qed.

(** * Further properties of the handlers *)

(** ** Storage failures of list and update *)

Section StorageFailures.

Context {L : Libraries}.

(** X1: when the storage query of the list operation fails, the answer
    is HTTP 500 with the error text of the store as message, and the
    process and the collection are left as they were. *)
Theorem list_reports_query_failure (env : Env) (w : World) (e : error) :
  fault env = Some e ->
  ListRecipeHandler env w
  = (w, JSON StatusInternalServerError (H [("error", e)])).
Proof.
  intros F. unfold ListRecipeHandler, Find. now rewrite F.
Qed.

(** X2: when the body binds and the storage call of the update operation
    fails, the answer is HTTP 500 whose message is the error text of the
    store itself; the text is also printed, the package-level [err]
    holds it, and the collection is left as it was. *)
Theorem update_reports_storage_failure
    (env : Env) (id reqBody : string) (w : World) (e : error) :
  snd (ShouldBindJSON reqBody zeroRecipe) = None ->
  fault env = Some e ->
  snd (UpdateRecipeHandler env id reqBody w)
  = JSON StatusInternalServerError (H [("error", e)])
  /\ stdout (fst (UpdateRecipeHandler env id reqBody w)) = stdout w ++ [e]
  /\ err (fst (UpdateRecipeHandler env id reqBody w)) = Some e
  /\ collection (fst (UpdateRecipeHandler env id reqBody w)) = collection w.
Proof.
  intros B F. rewrite (update_handler_store env id reqBody w B), F.
  repeat split.
Qed.

(** X3: every answer of the four routes has status 200, 400 or 500; the
    search always answers 200 and the list never answers 400. *)
Theorem serve_status (env : Env) (req : Request) (w : World) :
  In (status (snd (serve env req w)))
     [StatusOK; StatusBadRequest; StatusInternalServerError]
  /\ (forall query, status (snd (serve env (GET_recipes_search query) w))
                    = StatusOK)
  /\ status (snd (serve env GET_recipes w)) <> StatusBadRequest.
Proof.
  split; [|split].
  - destruct req as [reqBody | | query | id reqBody]; cbn [serve].
    + unfold NewRecipeHandler.
      destruct (ShouldBindJSON reqBody zeroRecipe) as [r [e|]];
        [right; left; reflexivity|].
      cbn [NewObjectID]. unfold InsertOne. cbn [fault collection].
      destruct (fault env); [right; right; left; reflexivity|].
      match goal with |- context [has_id ?c ?d] => destruct (has_id c d) end;
        [right; right; left; reflexivity | left; reflexivity].
    + unfold ListRecipeHandler, Find.
      destruct (fault env); [right; right; left; reflexivity | left; reflexivity].
    + left. reflexivity.
    + unfold UpdateRecipeHandler.
      destruct (ShouldBindJSON reqBody zeroRecipe) as [r [e|]];
        [right; left; reflexivity|].
      destruct (ObjectIDFromHex id) as [objectId e]. unfold UpdateOne.
      destruct (fault env); [right; right; left; reflexivity | left; reflexivity].
  - reflexivity.
  - cbn [serve]. unfold ListRecipeHandler, Find.
    destruct (fault env); discriminate.
Qed.

End StorageFailures.

(** ** What the requests do to the collection *)

Lemma update_first_no_match (filter : Doc) (update : list (string * Doc))
    (coll : list Doc) :
  (forall d, In d coll -> matches filter d = false) ->
  update_first filter update coll = coll.
Proof.
  induction coll as [|d coll IH]; intros N; simpl; [reflexivity|].
  rewrite (N d) by now left.
  rewrite IH; [reflexivity|]. intros d0 I. apply N. now right.
Qed.

Lemma update_first_at (filter : Doc) (update : list (string * Doc))
    (pre : list Doc) (d : Doc) (post : list Doc) :
  (forall d0, In d0 pre -> matches filter d0 = false) ->
  matches filter d = true ->
  update_first filter update (pre ++ d :: post)
  = pre ++ apply_update update d :: post.
Proof.
  induction pre as [|d0 pre IH]; intros N M; simpl.
  - now rewrite M.
  - rewrite (N d0) by now left.
    rewrite IH; [reflexivity| |exact M]. intros d1 I. apply N. now right.
Qed.

Lemma same_frame_refl (d : Doc) : same_frame d d.
Proof. intros k _. reflexivity. Qed.

Lemma same_frame_trans (d1 d2 d3 : Doc) :
  same_frame d1 d2 -> same_frame d2 d3 -> same_frame d1 d3.
Proof. intros A B k N. now rewrite (B k N), (A k N). Qed.

Lemma Forall2_same_frame_refl (c : list Doc) : Forall2 same_frame c c.
Proof. induction c; constructor; [apply same_frame_refl | assumption]. Qed.

Lemma Forall2_same_frame_trans (c1 c2 c3 : list Doc) :
  Forall2 same_frame c1 c2 -> Forall2 same_frame c2 c3 ->
  Forall2 same_frame c1 c3.
Proof.
  intros A; revert c3; induction A as [|d1 d2 c1 c2 F A IH]; intros c3 B.
  - inversion B. constructor.
  - inversion B as [|d2' d3 c2' c3' F' B' E1 E2]; subst.
    constructor; [now apply same_frame_trans with d2 | now apply IH].
Qed.

Lemma same_frame_ids (c c' : list Doc) :
  Forall2 same_frame c c' -> ids c' = ids c.
Proof.
  induction 1 as [|d d' c c' F A IH]; [reflexivity|].
  unfold ids in *. cbn [map]. rewrite IH. f_equal.
  apply F. intros [Q|[Q|[Q|[Q|[]]]]]; discriminate.
Qed.

Section Collection.

Context {L : Libraries}.

(** The update handler rewrites documents only inside the frame. *)
Lemma update_frame (env : Env) (id reqBody : string) (w : World) :
  Forall2 same_frame (collection w)
          (collection (fst (UpdateRecipeHandler env id reqBody w))).
Proof.
  destruct (snd (ShouldBindJSON reqBody zeroRecipe)) as [e|] eqn:B.
  - unfold UpdateRecipeHandler.
    destruct (ShouldBindJSON reqBody zeroRecipe) as [r e0].
    cbn [snd] in B. subst e0. apply Forall2_same_frame_refl.
  - rewrite (update_handler_store env id reqBody w B).
    destruct (fault env) as [e|]; [apply Forall2_same_frame_refl|].
    cbn [fst set_err set_collection collection].
    match goal with
    | |- context [update_first ?f ?u ?c] =>
        destruct (update_first_split f u c)
          as [[E _]|(pre & d & post & E & _ & _ & U)]
    end.
    + rewrite E. apply Forall2_same_frame_refl.
    + rewrite U. rewrite E at 1.
      apply Forall2_app; [apply Forall2_same_frame_refl|].
      constructor; [|apply Forall2_same_frame_refl].
      intros k NK. cbn [apply_update fold_left fst snd String.eqb Ascii.eqb Bool.eqb].
      now apply lookup_apply_set_other.
Qed.

(** The create handler leaves the collection as it was or appends the
    document of a recipe whose identifier no stored document has. *)
Lemma create_collection (env : Env) (reqBody : string) (w : World) :
  collection (fst (NewRecipeHandler env reqBody w)) = collection w
  \/ exists r : Recipe,
       collection (fst (NewRecipeHandler env reqBody w))
       = collection w ++ [bsonMarshal r]
       /\ has_id (collection w) (bsonMarshal r) = false.
Proof.
  unfold NewRecipeHandler.
  destruct (ShouldBindJSON reqBody zeroRecipe) as [r [e|]]; [now left|].
  cbn [NewObjectID]. unfold InsertOne. cbn [fault collection].
  destruct (fault env); [now left|].
  match goal with |- context [has_id ?c (bsonMarshal ?x)] =>
    destruct (has_id c (bsonMarshal x)) eqn:D; [now left|];
    right; exists x; split; [reflexivity | exact D]
  end.
Qed.

Lemma serve_collection (env : Env) (req : Request) (w : World) :
  exists kept added,
    collection (fst (serve env req w)) = kept ++ added
    /\ Forall2 same_frame (collection w) kept
    /\ (List.length added <= if isPOST req then 1 else 0)%nat
    /\ (added = []
        \/ exists r, added = [bsonMarshal r]
                     /\ has_id (collection w) (bsonMarshal r) = false).
Proof.
  destruct req as [reqBody | | query | id reqBody]; cbn [serve isPOST].
  - destruct (create_collection env reqBody w) as [E|(r & E & D)].
    + exists (collection w), []. rewrite E, app_nil_r.
      repeat split; [apply Forall2_same_frame_refl | cbn; lia | now left].
    + exists (collection w), [bsonMarshal r]. rewrite E.
      repeat split; [apply Forall2_same_frame_refl | cbn; lia |].
      right. now exists r.
  - exists (collection w), []. rewrite app_nil_r.
    repeat split; [|apply Forall2_same_frame_refl | cbn; lia | now left].
    unfold ListRecipeHandler, Find. destruct (fault env); reflexivity.
  - exists (collection w), []. rewrite app_nil_r.
    repeat split; [apply Forall2_same_frame_refl | cbn; lia | now left].
  - exists (collection (fst (UpdateRecipeHandler env id reqBody w))), [].
    rewrite app_nil_r.
    repeat split; [apply update_frame | cbn; lia | now left].
Qed.

(** X4: the answer of the update operation does not depend on the
    collection, and when no stored document has the object id read from
    the path the collection is left as it was: nothing is inserted and
    the answer is still HTTP 200 with the confirmation message. *)
Theorem update_of_absent_id
    (env : Env) (id reqBody : string) (w w0 : World) :
  snd (UpdateRecipeHandler env id reqBody w)
  = snd (UpdateRecipeHandler env id reqBody w0)
  /\ (snd (ShouldBindJSON reqBody zeroRecipe) = None ->
      fault env = None ->
      (forall d, In d (collection w) ->
         lookup "_id" d <> Some (BObjectID (fst (ObjectIDFromHex id)))) ->
      collection (fst (UpdateRecipeHandler env id reqBody w)) = collection w
      /\ snd (UpdateRecipeHandler env id reqBody w)
         = JSON StatusOK (H [("message", "Recipe has been updated")])).
Proof.
  split.
  - unfold UpdateRecipeHandler.
    destruct (ShouldBindJSON reqBody zeroRecipe) as [r [e|]]; [reflexivity|].
    destruct (ObjectIDFromHex id) as [objectId e]. unfold UpdateOne.
    destruct (fault env); reflexivity.
  - intros B F N. rewrite (update_handler_store env id reqBody w B), F.
    cbn [fst snd set_err set_collection collection]. split; [|reflexivity].
    apply update_first_no_match. intros d I.
    destruct (matches [("_id", BObjectID (fst (ObjectIDFromHex id)))] d) eqn:M;
      [|reflexivity].
    apply matches_id in M. now destruct (N d I).
Qed.

(** X5: after any sequence of requests every document that was stored
    is still stored, at its place, with the value it had under every key
    other than name, instructions, ingredients and tags, _id and
    publishedAt among them; documents are only added at the end, at most
    one per create request. *)
Theorem run_keeps_documents (trace : list (Env * Request)) (w : World) :
  exists kept added,
    collection (run w trace) = kept ++ added
    /\ Forall2 same_frame (collection w) kept
    /\ Forall2 (fun d d' => lookup "_id" d' = lookup "_id" d
                            /\ lookup "publishedAt" d' = lookup "publishedAt" d)
               (collection w) kept
    /\ (List.length added <= posts trace)%nat.
Proof.
  assert (G : exists kept added,
            collection (run w trace) = kept ++ added
            /\ Forall2 same_frame (collection w) kept
            /\ (List.length added <= posts trace)%nat).
  { revert w; induction trace as [|[env req] trace IH]; intros w.
    - exists (collection w), []. cbn [run]. rewrite app_nil_r.
      repeat split; [apply Forall2_same_frame_refl | cbn; lia].
    - cbn [run].
      destruct (serve_collection env req w) as (k1 & a1 & E1 & F1 & N1 & _).
      destruct (IH (fst (serve env req w))) as (k2 & a2 & E2 & F2 & N2).
      rewrite E1 in F2.
      apply Forall2_app_inv_l in F2 as (k2a & k2b & Fa & Fb & ->).
      exists k2a, (k2b ++ a2). rewrite E2, <- app_assoc.
      repeat split.
      + now apply Forall2_same_frame_trans with k1.
      + rewrite length_app, <- (Forall2_length Fb).
        unfold posts in *. cbn [filter snd].
        destruct (isPOST req); cbn [List.length]; lia. }
  destruct G as (kept & added & E & F & N).
  exists kept, added. repeat split; try assumption.
  clear E N. induction F as [|d d' c c' S F IH]; constructor; [|exact IH].
  split; apply S; intros [Q|[Q|[Q|[Q|[]]]]]; discriminate.
Qed.

End Collection.

(** ** Identifiers of the stored documents *)

Lemma has_id_false_matches (coll : list Doc) (r : Recipe) :
  has_id coll (bsonMarshal r) = false ->
  forall d, In d coll -> lookup "_id" d <> Some (BObjectID (ID r)).
Proof.
  unfold has_id. cbn [bsonMarshal lookup String.eqb Ascii.eqb Bool.eqb].
  intros E d I Q.
  assert (T : existsb (fun d' => match lookup "_id" d' with
                                 | Some v' => BVal_eqb v' (BObjectID (ID r))
                                 | None => false
                                 end) coll = true).
  { apply existsb_exists. exists d. split; [exact I|]. rewrite Q.
    cbn [BVal_eqb]. now apply ObjectID_eqb_eq. }
  congruence.
Qed.

Lemma set_field_same (k : string) (v : BVal) (d : Doc) :
  lookup k d = Some v -> set_field k v d = d.
Proof.
  induction d as [|[k0 v0] d IH]; simpl; [discriminate|].
  destruct (String.eqb k0 k); intros E.
  - now injection E as ->.
  - now rewrite IH.
Qed.

Section Identifiers.

Context {L : Libraries}.

(** X6: if the stored documents have pairwise different _id, they still
    have after any sequence of requests: an update never writes _id and
    a create only stores a document whose identifier no stored document
    has. *)
Theorem run_keeps_ids_distinct (trace : list (Env * Request)) (w : World) :
  NoDup (ids (collection w)) -> NoDup (ids (collection (run w trace))).
Proof.
  revert w; induction trace as [|[env req] trace IH]; intros w N; cbn [run].
  - exact N.
  - apply IH.
    destruct (serve_collection env req w) as (kept & added & E & F & _ & A).
    rewrite E. unfold ids. rewrite map_app.
    fold (ids kept). rewrite (same_frame_ids _ _ F).
    destruct A as [->|(r & -> & D)].
    + cbn [map]. now rewrite app_nil_r.
    + cbn [map bsonMarshal lookup String.eqb Ascii.eqb Bool.eqb].
      apply NoDup_app; [exact N | repeat constructor; intros [] |].
      intros a I [<-|[]].
      unfold ids in I. apply in_map_iff in I as (d & Q & I).
      exact (has_id_false_matches _ _ D d I Q).
Qed.

(** X7: repeating an update that the store applied changes nothing more:
    the collection after the second request is the collection after the
    first. *)
Theorem update_is_idempotent
    (env1 env2 : Env) (id reqBody : string) (w : World) :
  snd (ShouldBindJSON reqBody zeroRecipe) = None ->
  fault env1 = None ->
  collection (fst (UpdateRecipeHandler env2 id reqBody
                     (fst (UpdateRecipeHandler env1 id reqBody w))))
  = collection (fst (UpdateRecipeHandler env1 id reqBody w)).
Proof.
  intros B F1.
  rewrite (update_handler_store env2 id reqBody _ B).
  rewrite (update_handler_store env1 id reqBody w B), F1.
  destruct (fault env2) as [e|]; [reflexivity|].
  cbn [fst set_err set_collection collection].
  set (recipe := fst (ShouldBindJSON reqBody zeroRecipe)).
  set (filter := [("_id", BObjectID (fst (ObjectIDFromHex id)))]).
  set (fields := [("name", BString (Name recipe));
                  ("instructions", bsonStrings (Instructions recipe));
                  ("ingredients", bsonStrings (Ingredients recipe));
                  ("tags", bsonStrings (Tags recipe))]).
  destruct (update_first_split filter [("$set", fields)] (collection w))
    as [[E N]|(pre & d & post & E & N & M & U)].
  - rewrite E. now apply update_first_no_match.
  - rewrite U.
    assert (A : apply_update [("$set", fields)] d = apply_set fields d)
      by reflexivity.
    rewrite A.
    assert (M' : matches filter (apply_set fields d) = true).
    { apply matches_id. rewrite lookup_apply_set_other.
      - now apply matches_id.
      - intros [Q|[Q|[Q|[Q|[]]]]]; discriminate. }
    rewrite (update_first_at filter _ pre _ post N M').
    do 2 f_equal.
    change (apply_update [("$set", fields)] (apply_set fields d))
      with (apply_set fields (apply_set fields d)).
    set (d' := apply_set fields d).
    assert (Ln : lookup "name" d' = Some (BString (Name recipe)))
      by (unfold d', apply_set, fields; cbn [fold_left fst snd];
          now rewrite !lookup_set_field).
    assert (Ls : lookup "instructions" d'
                 = Some (bsonStrings (Instructions recipe)))
      by (unfold d', apply_set, fields; cbn [fold_left fst snd];
          now rewrite !lookup_set_field).
    assert (Li : lookup "ingredients" d'
                 = Some (bsonStrings (Ingredients recipe)))
      by (unfold d', apply_set, fields; cbn [fold_left fst snd];
          now rewrite !lookup_set_field).
    assert (Lt : lookup "tags" d' = Some (bsonStrings (Tags recipe)))
      by (unfold d', apply_set, fields; cbn [fold_left fst snd];
          now rewrite !lookup_set_field).
    clearbody d'. unfold apply_set, fields. cbn [fold_left fst snd].
    now rewrite (set_field_same _ _ _ Ln), (set_field_same _ _ _ Ls),
      (set_field_same _ _ _ Li), (set_field_same _ _ _ Lt).
Qed.

End Identifiers.

(** ** Creates, and what follows them *)

Lemma counters_differ (a k : Z) :
  0 <= k < 2 ^ 24 - 1 ->
  uint32 a mod 2 ^ 24 <> uint32 (uint32 a + 1 + k) mod 2 ^ 24.
Proof.
  unfold uint32. change (2 ^ 24) with 16777216.
  change (2 ^ 32) with 4294967296.
  intros K E. Z.div_mod_to_equations. lia.
Qed.

Section Creates.

Context {L : Libraries}.

(** A create answered with a recipe stored that recipe, under the
    identifier generated from the counter. *)
Lemma create_ok_inv (env : Env) (reqBody : string) (w : World) (r : Recipe) :
  snd (NewRecipeHandler env reqBody w) = JSON StatusOK (VRecipe r) ->
  NewRecipeHandler env reqBody w
  = (mkWorld (recipes w) None (uint32 (objectIDCounter w + 1))
             (processUnique w) (stdout w)
             (collection w ++ [bsonMarshal r]),
     JSON StatusOK (VRecipe r))
  /\ has_id (collection w) (bsonMarshal r) = false
  /\ ID r = NewObjectIDFromTimestamp (oidNow env) (processUnique w)
                                     (uint32 (objectIDCounter w + 1))
  /\ r = set_PublishedAt
           (set_ID (fst (ShouldBindJSON reqBody zeroRecipe))
                   (fst (NewObjectID env w))) (Now env).
Proof.
  unfold NewRecipeHandler.
  destruct (ShouldBindJSON reqBody zeroRecipe) as [r0 [e|]]; [discriminate|].
  cbn [NewObjectID fst]. unfold InsertOne. cbn [fault collection].
  destruct (fault env); [discriminate|].
  match goal with |- context [has_id ?c ?d] => destruct (has_id c d) eqn:D end;
    [discriminate|].
  cbn [snd fst set_err set_collection]. intros E.
  injection E as <-. repeat split. exact D.
Qed.

(** The counter and the process-unique bytes along a run. *)
Lemma serve_counter (env : Env) (req : Request) (w : World) :
  processUnique (fst (serve env req w)) = processUnique w
  /\ (objectIDCounter (fst (serve env req w)) = objectIDCounter w
      \/ (isPOST req = true
          /\ objectIDCounter (fst (serve env req w))
             = uint32 (objectIDCounter w + 1))).
Proof.
  destruct req as [reqBody | | query | id reqBody]; cbn [serve isPOST].
  - unfold NewRecipeHandler.
    destruct (ShouldBindJSON reqBody zeroRecipe) as [r [e|]];
      [split; [reflexivity | now left]|].
    cbn [NewObjectID]. unfold InsertOne. cbn [fault collection].
    destruct (fault env); [split; [reflexivity | right; now split]|].
    match goal with |- context [has_id ?c ?d] => destruct (has_id c d) end;
      (split; [reflexivity | right; now split]).
  - unfold ListRecipeHandler, Find.
    destruct (fault env); (split; [reflexivity | now left]).
  - split; [reflexivity | now left].
  - unfold UpdateRecipeHandler.
    destruct (ShouldBindJSON reqBody zeroRecipe) as [r [e|]];
      [split; [reflexivity | now left]|].
    destruct (ObjectIDFromHex id) as [objectId e]. unfold UpdateOne.
    destruct (fault env); (split; [reflexivity | now left]).
Qed.

Lemma run_counter (trace : list (Env * Request)) (w : World) :
  processUnique (run w trace) = processUnique w
  /\ exists k, 0 <= k <= Z.of_nat (posts trace)
               /\ uint32 (objectIDCounter (run w trace) + 1)
                  = uint32 (objectIDCounter w + (k + 1)).
Proof.
  revert w; induction trace as [|[env req] trace IH]; intros w; cbn [run].
  - split; [reflexivity|]. exists 0. split; [cbn; lia|]. reflexivity.
  - destruct (IH (fst (serve env req w))) as (U & k & K & E).
    destruct (serve_counter env req w) as (U1 & [C|[P C]]).
    + split; [congruence|]. exists k. rewrite E, C. split; [|reflexivity].
      unfold posts in *. cbn [filter snd].
      destruct (isPOST req); cbn [List.length]; lia.
    + split; [congruence|]. exists (k + 1). rewrite E, C.
      split.
      * unfold posts in *. cbn [filter snd]. rewrite P. cbn [List.length]. lia.
      * unfold uint32. rewrite Z.add_mod_idemp_l by lia. f_equal. lia.
Qed.

(** X8: two creates answered with a recipe give different identifiers
    when fewer than 2^24 - 1 create requests were served between them,
    whatever else was served. *)
Theorem created_ids_are_distinct
    (env1 env2 : Env) (body1 body2 : string)
    (mid : list (Env * Request)) (w : World) (r1 r2 : Recipe) :
  snd (NewRecipeHandler env1 body1 w) = JSON StatusOK (VRecipe r1) ->
  snd (NewRecipeHandler env2 body2
         (run (fst (NewRecipeHandler env1 body1 w)) mid))
  = JSON StatusOK (VRecipe r2) ->
  Z.of_nat (posts mid) < 2 ^ 24 - 1 ->
  ID r1 <> ID r2.
Proof.
  intros A1 A2 P.
  destruct (create_ok_inv _ _ _ _ A1) as (W1 & _ & I1 & _).
  destruct (create_ok_inv _ _ _ _ A2) as (_ & _ & I2 & _).
  destruct (run_counter mid (fst (NewRecipeHandler env1 body1 w)))
    as (U & k & K & E).
  rewrite I1, I2, U, E, W1. cbn [fst processUnique objectIDCounter].
  apply NewObjectIDFromTimestamp_distinct.
  replace (uint32 (objectIDCounter w + 1) + (k + 1))
    with (uint32 (objectIDCounter w + 1) + 1 + k) by lia.
  apply counters_differ. lia.
Qed.

(** X9: a list that follows a stored create answers with the entries of
    the earlier documents followed by the entry of the new document, as
    the decoder reads it back. *)
Theorem list_after_create
    (env env' : Env) (reqBody : string) (w : World) (r : Recipe) :
  snd (NewRecipeHandler env reqBody w) = JSON StatusOK (VRecipe r) ->
  fault env' = None ->
  snd (ListRecipeHandler env' (fst (NewRecipeHandler env reqBody w)))
  = JSON StatusOK
         (VRecipes
            (Some (map (fun doc => fst (Decode doc zeroRecipe)) (collection w)
                   ++ [fst (Decode (bsonMarshal r) zeroRecipe)]))).
Proof.
  intros A F. destruct (create_ok_inv _ _ _ _ A) as (W & _).
  rewrite W. unfold ListRecipeHandler, Find. rewrite F.
  cbn [fst snd collection]. unfold make.
  now rewrite list_loop, map_app.
Qed.

(** X10: requests routed with GET change nothing: after any sequence of
    list and search requests the process and the collection are as they
    were. *)
Theorem get_requests_change_nothing
    (trace : list (Env * Request)) (w : World) :
  forallb (fun er => isGET (snd er)) trace = true -> run w trace = w.
Proof.
  revert w; induction trace as [|[env req] trace IH]; intros w G; cbn [run].
  - reflexivity.
  - cbn [forallb snd] in G. apply andb_true_iff in G as [Gr Gt].
    destruct req as [reqBody | | query | id reqBody]; try discriminate;
      cbn [serve].
    + unfold ListRecipeHandler, Find.
      destruct (fault env); cbn [fst]; now apply IH.
    + cbn [SearchRecipesHandler fst]. now apply IH.
Qed.

(** X11: on ASCII tags the search only sees the query up to case: two
    ASCII queries with the same lower-cased text get the same answer. *)
Theorem search_ignores_case
    (query1 query2 : list (string * string)) (w : World) :
  tagsASCII (elems (recipes w)) = true ->
  isASCII (Query query1 "tag") = true ->
  isASCII (Query query2 "tag") = true ->
  lower (Query query1 "tag") = lower (Query query2 "tag") ->
  SearchRecipesHandler query1 w = SearchRecipesHandler query2 w.
Proof.
  intros T A1 A2 E. unfold SearchRecipesHandler. rewrite !search_loop.
  do 4 f_equal. unfold tagsASCII in T. rewrite forallb_forall in T.
  apply filter_ext_in. intros r I. specialize (T r I).
  rewrite forallb_forall in T. unfold has_tag.
  induction (elems (Tags r)) as [|t l IH]; [reflexivity|].
  cbn [existsb].
  rewrite IH by (intros x Ix; apply T; now right).
  rewrite !EqualFold_ascii by (try assumption; apply T; now left).
  now rewrite E.
Qed.

End Creates.

(** ** The identifier of a response, used as the path of an update *)

Lemma hex_ok_all (b : Z) : is_byte b = true -> hex_ok b = true.
Proof.
  unfold is_byte. intros R. apply andb_true_iff in R as [R0 R1].
  apply Z.leb_le in R0. apply Z.ltb_lt in R1.
  assert (A : forallb hex_ok (map Z.of_nat (seq 0 256)) = true)
    by (vm_compute; reflexivity).
  rewrite forallb_forall in A. apply A.
  apply in_map_iff. exists (Z.to_nat b). split; [lia|].
  apply in_seq. lia.
Qed.

Lemma hexDecode_Hex (o : ObjectID) :
  forallb is_byte o = true -> hexDecode (Hex o) = Some o.
Proof.
  induction o as [|b o IH]; intros R; [reflexivity|].
  cbn [forallb] in R. apply andb_true_iff in R as [Rb Ro].
  cbn [Hex hexDecode]. rewrite (IH Ro).
  pose proof (hex_ok_all b Rb) as K. unfold hex_ok in K.
  destruct (fromHexChar (hexDigit (Z.shiftr b 4))) as [p|]; [|discriminate].
  destruct (fromHexChar (hexDigit (Z.land b 15))) as [q|]; [|discriminate].
  apply Z.eqb_eq in K. now rewrite K.
Qed.

Lemma length_Hex (o : ObjectID) :
  String.length (Hex o) = (2 * List.length o)%nat.
Proof.
  induction o as [|b o IH]; [reflexivity|].
  cbn [Hex String.length List.length]. rewrite IH. lia.
Qed.

(** [ObjectIDFromHex] reads back what [Hex] wrote. *)
Lemma ObjectIDFromHex_Hex (o : ObjectID) :
  List.length o = 12%nat -> forallb is_byte o = true ->
  ObjectIDFromHex (Hex o) = (o, None).
Proof.
  intros N R. unfold ObjectIDFromHex.
  rewrite length_Hex, N, (hexDecode_Hex o R). reflexivity.
Qed.

Lemma is_byte_byte_of (v : Z) : is_byte (byte_of v) = true.
Proof.
  unfold is_byte. rewrite byte_of_mod.
  pose proof (Z.mod_pos_bound v 256 ltac:(lia)).
  apply andb_true_iff. split; [apply Z.leb_le | apply Z.ltb_lt]; lia.
Qed.

Lemma NewObjectIDFromTimestamp_bytes (t : Time) (unique : list Z) (c : Z) :
  List.length unique = 5%nat -> forallb is_byte unique = true ->
  List.length (NewObjectIDFromTimestamp t unique c) = 12%nat
  /\ forallb is_byte (NewObjectIDFromTimestamp t unique c) = true.
Proof.
  intros N R. unfold NewObjectIDFromTimestamp, PutUint32, putUint24. split.
  - rewrite !length_app, N. reflexivity.
  - rewrite !forallb_app, R. cbn [forallb].
    now rewrite !is_byte_byte_of.
Qed.

Section ReturnedIdentifier.

Context {L : Libraries}.

(** X12: the identifier of a create response, in the hexadecimal text of
    its JSON form, is a path under which the new recipe is updated: when
    the process-unique part is five bytes, an update sent to that path
    and applied by the store leaves the earlier documents as they were
    and turns the new document into that of the recipe with the name,
    tags, ingredients and instructions of the body and the ID and
    PublishedAt it was created with; the text is the id field of the
    response. *)
Theorem update_by_returned_id
    (env1 env2 : Env) (body1 body2 : string) (w : World) (r : Recipe) :
  List.length (processUnique w) = 5%nat ->
  forallb is_byte (processUnique w) = true ->
  snd (NewRecipeHandler env1 body1 w) = JSON StatusOK (VRecipe r) ->
  snd (ShouldBindJSON body2 zeroRecipe) = None ->
  fault env2 = None ->
  collection (fst (UpdateRecipeHandler env2 (Hex (ID r)) body2
                     (fst (NewRecipeHandler env1 body1 w))))
  = collection w
    ++ [bsonMarshal (updated r (fst (ShouldBindJSON body2 zeroRecipe)))]
  /\ snd (UpdateRecipeHandler env2 (Hex (ID r)) body2
            (fst (NewRecipeHandler env1 body1 w)))
     = JSON StatusOK (H [("message", "Recipe has been updated")])
  /\ exists rest,
       jsonMarshal (VRecipe r) = JObject (("id", JString (Hex (ID r))) :: rest).
Proof.
  intros N R A B F.
  destruct (create_ok_inv _ _ _ _ A) as (W & D & I & _).
  rewrite W. cbn [fst].
  rewrite (update_handler_store env2 (Hex (ID r)) body2 _ B), F.
  cbn [fst snd set_err set_collection collection].
  destruct (NewObjectIDFromTimestamp_bytes (oidNow env1) (processUnique w)
              (uint32 (objectIDCounter w + 1)) N R) as [Len Byt].
  rewrite <- I in Len, Byt.
  rewrite (ObjectIDFromHex_Hex (ID r) Len Byt). cbn [fst].
  split; [|split; [reflexivity | eexists; reflexivity]].
  rewrite update_first_at.
  - reflexivity.
  - intros d0 I0.
    destruct (matches [("_id", BObjectID (ID r))] d0) eqn:M; [|reflexivity].
    apply matches_id in M.
    now destruct (has_id_false_matches _ _ D d0 I0).
  - apply matches_id. reflexivity.
Qed.

End ReturnedIdentifier.

(** ** The further properties on the sample data *)

(** X1 when the store cannot be reached. *)
Lemma list_reports_query_failure_witness :
  @ListRecipeHandler sampleLibraries outage pastaStore
  = (pastaStore,
     JSON StatusInternalServerError
          (H [("error", "server selection error: context deadline exceeded")])).
Proof.
  exact (@list_reports_query_failure sampleLibraries outage pastaStore _ eq_refl).
Defined.

(** X2 when the store cannot be reached. *)
Lemma update_reports_storage_failure_witness :
  snd (@UpdateRecipeHandler sampleLibraries outage "654211000102030405000007"
                            pastaBody pastaStore)
  = JSON StatusInternalServerError
         (H [("error", "server selection error: context deadline exceeded")])
  /\ collection (fst (@UpdateRecipeHandler sampleLibraries outage
                        "654211000102030405000007" pastaBody pastaStore))
     = collection pastaStore.
Proof.
  destruct (@update_reports_storage_failure sampleLibraries outage
              "654211000102030405000007" pastaBody pastaStore _ eq_refl eq_refl)
    as (A & _ & _ & B).
  split; [exact A | exact B].
Defined.

(** X4 on a well-formed identifier that no stored document has. *)
Lemma update_of_absent_id_witness :
  collection (fst (@UpdateRecipeHandler sampleLibraries calm
                     "aaaaaaaaaaaaaaaaaaaaaaaa" pastaBody twoDocs))
  = collection twoDocs
  /\ snd (@UpdateRecipeHandler sampleLibraries calm
            "aaaaaaaaaaaaaaaaaaaaaaaa" pastaBody twoDocs)
     = JSON StatusOK (H [("message", "Recipe has been updated")]).
Proof.
  destruct (@update_of_absent_id sampleLibraries calm
              "aaaaaaaaaaaaaaaaaaaaaaaa" pastaBody twoDocs twoDocs) as [_ A].
  apply A; [reflexivity | reflexivity |].
  intros d [<-|[<-|[]]]; discriminate.
Defined.

(** X6 on a create followed by an update. *)
Lemma run_keeps_ids_distinct_witness :
  ids (collection twoDocs)
  = [Some (BObjectID oidA); Some (BObjectID NilObjectID)]
  /\ NoDup (ids (collection
                   (@run sampleLibraries twoDocs
                         [(calm, POST_recipes pastaBody);
                          (calm, PUT_recipes_id "xyz" pastaBody)]))).
Proof.
  split; [reflexivity|].
  apply (@run_keeps_ids_distinct sampleLibraries).
  repeat constructor.
  - intros [E|[]]. discriminate.
  - intros [].
Defined.

(** X7 on the update of the first of two documents. *)
Lemma update_is_idempotent_witness :
  collection
    (fst (@UpdateRecipeHandler sampleLibraries calm "654211000102030405000007"
            "{}"
            (fst (@UpdateRecipeHandler sampleLibraries calm
                    "654211000102030405000007" "{}" twoDocs))))
  = collection (fst (@UpdateRecipeHandler sampleLibraries calm
                       "654211000102030405000007" "{}" twoDocs))
  /\ collection (fst (@UpdateRecipeHandler sampleLibraries calm
                        "654211000102030405000007" "{}" twoDocs))
     <> collection twoDocs.
Proof.
  split.
  - exact (@update_is_idempotent sampleLibraries calm calm
             "654211000102030405000007" "{}" twoDocs eq_refl eq_refl).
  - discriminate.
Defined.

(** X8 on two creates with a list and an update between them. *)
Lemma created_ids_are_distinct_witness :
  snd (@NewRecipeHandler sampleLibraries calm pastaBody emptyStore)
  = JSON StatusOK (VRecipe firstCreated)
  /\ ID firstCreated <> ID secondCreated.
Proof.
  split; [reflexivity|].
  apply (@created_ids_are_distinct sampleLibraries calm calm pastaBody "{}"
           [(calm, GET_recipes); (calm, PUT_recipes_id "xyz" "{}")]
           emptyStore firstCreated secondCreated).
  - reflexivity.
  - reflexivity.
  - reflexivity.
Defined.

(** X9 on the spec's example. *)
Lemma list_after_create_witness :
  snd (@ListRecipeHandler sampleLibraries calm
         (fst (@NewRecipeHandler sampleLibraries calm pastaBody twoDocs)))
  = JSON StatusOK
         (VRecipes
            (Some [set_PublishedAt pasta 1700000000000000000;
                   set_PublishedAt (set_Name zeroRecipe "old") 5000000;
                   set_PublishedAt firstCreated 1700000000000000000])).
Proof.
  rewrite (@list_after_create sampleLibraries calm calm pastaBody twoDocs
             firstCreated eq_refl eq_refl).
  reflexivity.
Defined.

(** X10 on a list followed by two searches. *)
Lemma get_requests_change_nothing_witness :
  @run sampleLibraries cached
       [(calm, GET_recipes); (outage, GET_recipes_search [("tag", "italian")]);
        (calm, GET_recipes_search [])]
  = cached.
Proof.
  exact (@get_requests_change_nothing sampleLibraries
           [(calm, GET_recipes);
            (outage, GET_recipes_search [("tag", "italian")]);
            (calm, GET_recipes_search [])] cached eq_refl).
Defined.

(** X11 on the spec's example: italian and ITALIAN. *)
Lemma search_ignores_case_witness :
  @SearchRecipesHandler sampleLibraries [("tag", "italian")] cached
  = @SearchRecipesHandler sampleLibraries [("tag", "ITALIAN")] cached
  /\ snd (@SearchRecipesHandler sampleLibraries [("tag", "italian")] cached)
     = JSON StatusOK (VRecipes (Some [pasta])).
Proof.
  split; [|reflexivity].
  exact (@search_ignores_case sampleLibraries [("tag", "italian")]
           [("tag", "ITALIAN")] cached eq_refl eq_refl eq_refl eq_refl).
Defined.

(** X12 on the spec's example: the recipe created from the Pasta body is
    renamed through the identifier of the response. *)
Lemma update_by_returned_id_witness :
  Hex (ID firstCreated) = "6553f100010203040500002a"
  /\ collection
       (fst (@UpdateRecipeHandler sampleLibraries calm (Hex (ID firstCreated))
               "{}"
               (fst (@NewRecipeHandler sampleLibraries calm pastaBody
                                       twoDocs))))
     = collection twoDocs
       ++ [[("_id", BObjectID (ID firstCreated)); ("name", BString "");
            ("tags", BNull); ("ingredients", BNull); ("instructions", BNull);
            ("publishedAt", BDateTime 1700000000000)]].
Proof.
  split; [reflexivity|].
  destruct (@update_by_returned_id sampleLibraries calm calm pastaBody "{}"
              twoDocs firstCreated eq_refl eq_refl eq_refl eq_refl eq_refl)
    as [A _].
  rewrite A. reflexivity.
Defined.
